(** * End-to-end harness of the virtual-kubelet: lifecycle and stats scenarios

    A shallow embedding of [test/e2e/basic_test.go] and of the environment
    fixtures of the test framework.  The scenarios are embedded as programs
    of a small test monad that threads the state of the outside world (the
    API server and the provider under test), the log of the interactions and
    the verdict of [testing.T]. *)

From Stdlib Require Import ZArith List Ascii String Bool Lia.
From Stdlib Require Import DecimalString.
Import ListNotations.
Open Scope string_scope.
Open Scope Z_scope.

(** ** Data model *)

(** [k8s.io/api/core/v1]: the part of a pod the harness reads or writes. *)
Module v1.

Record LocalObjectReference := { LocalObjectReference_Name : string }.

(** [Optional] is a [*bool] in the source: [None] is the nil pointer. *)
Record ConfigMapKeySelector := {
  ConfigMap_LocalObjectReference : LocalObjectReference;
  ConfigMap_Key : string;
  ConfigMap_Optional : option bool
}.

Record SecretKeySelector := {
  Secret_LocalObjectReference : LocalObjectReference;
  Secret_Key : string;
  Secret_Optional : option bool
}.

Record EnvVarSource := {
  ConfigMapKeyRef : option ConfigMapKeySelector;
  SecretKeyRef : option SecretKeySelector
}.

Record EnvVar := {
  EnvVar_Name : string;
  Value : string;
  ValueFrom : option EnvVarSource
}.

Record Container := {
  Container_Name : string;
  Image : string;
  Env : list EnvVar
}.

Record PodSpec := { Containers : list Container }.

Record Pod := {
  Namespace : string;
  Name : string;
  UID : string;
  Spec : PodSpec
}.

End v1.

(** [k8s.io/kubernetes/pkg/kubelet/apis/stats/v1alpha1]: the summary served
    by the [/stats/summary] endpoint. *)
Module v1alpha1.

Record PodReference := {
  Name : string;
  Namespace : string;
  UID : string
}.

Record ContainerStats := { ContainerStats_Name : string }.

Record PodStats := {
  PodRef : PodReference;
  Containers : list ContainerStats
}.

Record NodeStats := { NodeName : string }.

Record Summary := {
  Node : NodeStats;
  Pods : list PodStats
}.

End v1alpha1.

(** Go's [error] values as the harness tells them apart: the reason the API
    machinery attaches to a status error, and the message. *)
Inductive StatusReason :=
| StatusReasonUnknown
| StatusReasonNotFound
| StatusReasonAlreadyExists
| StatusReasonTimeout.

Record error := {
  Reason : StatusReason;
  Error : string
}.

(** [fmt.Errorf]: a plain error, carrying no API status. *)
Definition Errorf (msg : string) : error :=
  {| Reason := StatusReasonUnknown; Error := msg |}.

(** [apierrors.IsNotFound]. *)
Definition IsNotFound (e : error) : bool :=
  match Reason e with
  | StatusReasonNotFound => true
  | _ => false
  end.

(** [%d] of [fmt]. *)
Definition itoa (z : Z) : string := NilZero.string_of_int (Z.to_int z).

(** [len]. *)
Definition len {A} (l : list A) : Z := Z.of_nat (List.length l).

(** ** The stats correlator *)

(** The condition of the [if] in the loop of [findPodInPodStats]. *)
Definition samePod (p : v1alpha1.PodStats) (pod : v1.Pod) : bool :=
  (v1alpha1.Namespace (v1alpha1.PodRef p) =? v1.Namespace pod)%string &&
  (v1alpha1.Name (v1alpha1.PodRef p) =? v1.Name pod)%string &&
  (v1alpha1.UID (v1alpha1.PodRef p) =? v1.UID pod)%string.

(** The [for i, p := range summary.Pods] loop, entered at index [i]: the
    index of the first record that passes the test, if any. *)
Fixpoint rangePods (i : Z) (pods : list v1alpha1.PodStats) (pod : v1.Pod)
  : option Z :=
  match pods with
  | [] => None
  | p :: rest => if samePod p pod then Some i else rangePods (i + 1) rest pod
  end.

(** The double quote of the messages. *)
Definition dquote : string := String "034"%char EmptyString.

(** The message of the error built on the way out of the loop. *)
Definition notFoundMessage (pod : v1.Pod) : string :=
  "failed to find pod " ++ dquote ++ v1.Namespace pod ++ "/" ++ v1.Name pod
    ++ dquote ++ " in the slice of pod stats".

(** [findPodInPodStats]: the index of the pod in the [Pods] of the summary
    with a nil error, or [-1] with an error. *)
Definition findPodInPodStats (summary : v1alpha1.Summary) (pod : v1.Pod)
  : Z * option error :=
  match rangePods 0 (v1alpha1.Pods summary) pod with
  | Some i => (i, None)
  | None => (-1, Some (Errorf (notFoundMessage pod)))
  end.

(** ** The test framework

    [test/e2e/framework]: the handle [f] the scenarios share.  Its calls to
    the API server and to the provider are transitions of the outside world;
    the construction of a dummy pod object is pure. *)
Module framework.

Record Framework (World : Type) := {
  NodeName : string;
  CreateDummyPodObjectWithPrefix : string -> list string -> v1.Pod;
  CreatePod : v1.Pod -> World -> (option v1.Pod * option error) * World;
  DeletePod : string -> string -> World -> option error * World;
  DeletePodImmediately : string -> string -> World -> option error * World;
  WaitUntilPodReady : string -> string -> World -> option error * World;
  WaitUntilPodDeleted : string -> string -> World -> option error * World;
  GetStatsSummary :
    World -> (option v1alpha1.Summary * option error) * World
}.

Arguments NodeName {World}.
Arguments CreateDummyPodObjectWithPrefix {World}.
Arguments CreatePod {World}.
Arguments DeletePod {World}.
Arguments DeletePodImmediately {World}.
Arguments WaitUntilPodReady {World}.
Arguments WaitUntilPodDeleted {World}.
Arguments GetStatsSummary {World}.

Section Fixtures.

Context {World : Type} (f : Framework World).

(** [pod.Spec.Containers[0].Env = env]; [None] is the run-time panic of
    an index out of range. *)
Definition setEnvOfFirstContainer (pod : v1.Pod) (env : list v1.EnvVar)
  : option v1.Pod :=
  match v1.Containers (v1.Spec pod) with
  | [] => None
  | c :: rest =>
      Some {| v1.Namespace := v1.Namespace pod;
              v1.Name := v1.Name pod;
              v1.UID := v1.UID pod;
              v1.Spec := {| v1.Containers :=
                {| v1.Container_Name := v1.Container_Name c;
                   v1.Image := v1.Image c;
                   v1.Env := env |} :: rest |} |}
  end.

Definition CreatePodWithEnv (env : list v1.EnvVar) : option v1.Pod :=
  let pod := CreateDummyPodObjectWithPrefix f "nginxtest" ["foo"] in
  setEnvOfFirstContainer pod env.

Definition configMapEnv (name config key : string) (opt : bool)
  : v1.EnvVar :=
  {| v1.EnvVar_Name := name;
     v1.Value := EmptyString;
     v1.ValueFrom := Some
       {| v1.ConfigMapKeyRef := Some
            {| v1.ConfigMap_LocalObjectReference :=
                 {| v1.LocalObjectReference_Name := config |};
               v1.ConfigMap_Key := key;
               v1.ConfigMap_Optional := Some opt |};
          v1.SecretKeyRef := None |} |}.

Definition secretEnv (name secret key : string) (opt : bool)
  : v1.EnvVar :=
  {| v1.EnvVar_Name := name;
     v1.Value := EmptyString;
     v1.ValueFrom := Some
       {| v1.ConfigMapKeyRef := None;
          v1.SecretKeyRef := Some
            {| v1.Secret_LocalObjectReference :=
                 {| v1.LocalObjectReference_Name := secret |};
               v1.Secret_Key := key;
               v1.Secret_Optional := Some opt |} |} |}.

Definition CreatePodWithMandatoryConfigMaps : option v1.Pod :=
  let mandatory := false in
  let optional := true in
  let env := [ configMapEnv "zero" "Configname0" "key0" optional;
               configMapEnv "one" "Configname1" "key1" mandatory ] in
  CreatePodWithEnv env.

Definition CreatePodWithOptionalConfigMaps : option v1.Pod :=
  let optional := true in
  let env :=
    [ configMapEnv "ENVIRONMENTVARIABLE" "configname0" "key" optional ] in
  CreatePodWithEnv env.

Definition CreatePodWithOptionalSecrets : option v1.Pod :=
  let optional := true in
  let env :=
    [ secretEnv "ENVIRONMENTVARIABLE" "secretname0" "key" optional ] in
  CreatePodWithEnv env.

Definition CreatePodWithMandatorySecrets : option v1.Pod :=
  let mandatory := false in
  let optional := true in
  let env := [ secretEnv "zero" "secretname0" "secretkey0" optional;
               secretEnv "one" "secretname1" "secretkey1" mandatory ] in
  CreatePodWithEnv env.

End Fixtures.

End framework.

(** ** The test monad

    A scenario runs against the outside world and a [*testing.T].  Each
    interaction is logged with the answer it got.  [t.Fatal] leaves the
    scenario through [runtime.Goexit]; a nil dereference or an index out of
    range leaves it through a panic; deferred calls run on every way out. *)

Inductive Event :=
| EvCreatePod (obj : v1.Pod) (pod : option v1.Pod) (err : option error)
| EvWaitUntilPodReady (ns name : string) (err : option error)
| EvGetStatsSummary (stats : option v1alpha1.Summary) (err : option error)
| EvGo (ns name : string)
| EvDeletePod (ns name : string) (err : option error)
| EvDeletePodImmediately (ns name : string) (err : option error)
| EvRecv (ns name : string) (err : option error)
| EvSleep (d : Z)
| EvFatal (msg : string)
| EvError (msg : string).

Inductive Exit := Goexit | Panicked.

Inductive Result (A : Type) :=
| Returned (a : A)
| Exited (e : Exit).

Arguments Returned {A}.
Arguments Exited {A}.

Record State (World : Type) := {
  world : World;
  trace : list Event;
  failed : bool
}.

Arguments world {World}.
Arguments trace {World}.
Arguments failed {World}.

Definition Test (World A : Type) : Type :=
  State World -> Result A * State World.

(** What the goroutine of a deletion wait leaves on its channel:
    [ch <- err] or [close(ch)]. *)
Inductive Chan :=
| Sent (err : error)
| Closed.

(** The body of [go func() { if err := f.WaitUntilPodDeleted(..); err != nil
    { ch <- err } else { close(ch) } }()], given what the wait returned. *)
Definition deletionWaiter (err : option error) : Chan :=
  match err with
  | Some e => Sent e
  | None => Closed
  end.

(** [<-ch]: the value sent, or the zero value of a closed channel. *)
Definition receive (c : Chan) : option error :=
  match c with
  | Sent e => Some e
  | Closed => None
  end.

(** [time.Millisecond], in nanoseconds. *)
Definition Millisecond : Z := 1000000.

(** The time allowed for the provider to react to the deletion of a pod. *)
Definition deleteGracePeriodForProvider : Z := 100 * Millisecond.

Section Scenarios.

Context {World : Type}.
Variable f : framework.Framework World.
(** [time.Sleep]: what the world becomes while the scenario sleeps. *)
Variable Sleep : Z -> World -> World.

Definition ret {A} (a : A) : Test World A := fun s => (Returned a, s).

Definition bind {A B} (m : Test World A) (k : A -> Test World B)
  : Test World B :=
  fun s =>
    match m s with
    | (Returned a, s') => k a s'
    | (Exited e, s') => (Exited e, s')
    end.

Definition log (e : Event) (s : State World) (w : World) : State World :=
  {| world := w; trace := trace s ++ [e]; failed := failed s |}.

Definition panic {A} : Test World A := fun s => (Exited Panicked, s).

(** Reading through a pointer. *)
Definition deref {A} (p : option A) : Test World A :=
  match p with
  | Some a => ret a
  | None => panic
  end.

(** [t.Fatal] and [t.Fatalf]. *)
Definition Fatal {A} (msg : string) : Test World A :=
  fun s =>
    (Exited Goexit,
     {| world := world s; trace := trace s ++ [EvFatal msg];
        failed := true |}).

(** [t.Error]. *)
Definition Error_ (msg : string) : Test World unit :=
  fun s =>
    (Returned tt,
     {| world := world s; trace := trace s ++ [EvError msg];
        failed := true |}).

(** [defer d] followed by [body]: [d] runs when [body] is left, however
    it is left; a panic stays a panic. *)
Definition defer {A} (d : Test World unit) (body : Test World A)
  : Test World A :=
  fun s =>
    match body s with
    | (r, s') =>
        match d s' with
        | (Returned _, s'') => (r, s'')
        | (Exited e, s'') =>
            (match r with
             | Exited Panicked => Exited Panicked
             | _ => Exited e
             end, s'')
        end
    end.

Definition CreatePod (obj : v1.Pod)
  : Test World (option v1.Pod * option error) :=
  fun s =>
    match framework.CreatePod f obj (world s) with
    | ((pod, err), w) => (Returned (pod, err), log (EvCreatePod obj pod err) s w)
    end.

Definition WaitUntilPodReady (ns name : string)
  : Test World (option error) :=
  fun s =>
    match framework.WaitUntilPodReady f ns name (world s) with
    | (err, w) => (Returned err, log (EvWaitUntilPodReady ns name err) s w)
    end.

Definition GetStatsSummary
  : Test World (option v1alpha1.Summary * option error) :=
  fun s =>
    match framework.GetStatsSummary f (world s) with
    | ((stats, err), w) =>
        (Returned (stats, err), log (EvGetStatsSummary stats err) s w)
    end.

Definition DeletePod (ns name : string) : Test World (option error) :=
  fun s =>
    match framework.DeletePod f ns name (world s) with
    | (err, w) => (Returned err, log (EvDeletePod ns name err) s w)
    end.

Definition DeletePodImmediately (ns name : string)
  : Test World (option error) :=
  fun s =>
    match framework.DeletePodImmediately f ns name (world s) with
    | (err, w) => (Returned err, log (EvDeletePodImmediately ns name err) s w)
    end.

(** The [go] statement that starts the deletion wait of a pod.  The log is
    the log of the scenario's own goroutine: of the goroutine it starts,
    only the start is an event of it.  That goroutine runs on whatever the
    scenario does next, [t.Fatal] included; its steps, and how they
    interleave with those of the scenario, are the subject of
    [DeletionWait] below. *)
Definition goWaitUntilPodDeleted (ns name : string) : Test World unit :=
  fun s => (Returned tt, log (EvGo ns name) s (world s)).

(** [<-ch] on the channel of the deletion wait of a pod: the scenario
    blocks until the goroutine has returned from [WaitUntilPodDeleted],
    and gets what the goroutine left on the channel.  The call of
    [WaitUntilPodDeleted] by the goroutine is answered here, by the world
    as the scenario finds it when it receives; a scenario that never
    reaches the receive never reads the answer. *)
Definition recvWaitUntilPodDeleted (ns name : string)
  : Test World (option error) :=
  fun s =>
    match framework.WaitUntilPodDeleted f ns name (world s) with
    | (err, w) =>
        let got := receive (deletionWaiter err) in
        (Returned got, log (EvRecv ns name got) s w)
    end.

Definition timeSleep (d : Z) : Test World unit :=
  fun s => (Returned tt, log (EvSleep d) s (Sleep d (world s))).

Notation "x <- m ;; k" := (bind m (fun x => k))
  (at level 61, m at next level, right associativity).
Notation "' pat <- m ;; k" :=
  (bind m (fun x => match x with pat => k end))
  (at level 61, pat pattern, m at next level, right associativity).
Notation "m ;; k" := (bind m (fun _ => k))
  (at level 61, right associativity).

(** [if err != nil { t.Fatal(err) }]. *)
Definition fatalOnError (err : option error) : Test World unit :=
  match err with
  | Some e => Fatal (Error e)
  | None => ret tt
  end.

(** [findPodInPodStats] on the pointers the scenarios hold: a nil summary
    panics at [summary.Pods], a nil pod at [pod.Namespace]. *)
Definition findPodInPodStatsOf (stats : option v1alpha1.Summary)
  (pod : option v1.Pod) : Test World (Z * option error) :=
  summary <- deref stats ;;
  p <- deref pod ;;
  ret (findPodInPodStats summary p).

(** The deferred closure of the scenarios:
    [if err := f.DeletePod(pod.Namespace, pod.Name);
        err != nil && !apierrors.IsNotFound(err) { t.Error(err) }]. *)
Definition deferredDeletePod (pod : option v1.Pod) : Test World unit :=
  p <- deref pod ;;
  err <- DeletePod (v1.Namespace p) (v1.Name p) ;;
  match err with
  | Some e => if negb (IsNotFound e) then Error_ (Error e) else ret tt
  | None => ret tt
  end.

Definition wrongNodeMessage (expected got : string) : string :=
  "expected stats for node " ++ expected ++ ", got stats for node " ++ got.

Definition wrongCountMessage (desired current : Z) : string :=
  "expected stats for " ++ itoa desired ++ " containers, got stats for "
    ++ itoa current ++ " containers".

Definition stillFoundMessage (p : v1.Pod) : string :=
  "expected to NOT find pod " ++ dquote ++ v1.Namespace p ++ "/"
    ++ v1.Name p ++ dquote ++ " in the slice of pod stats".

(** [stats.Pods[idx]]. *)
Definition index {A} (l : list A) (idx : Z) : Test World A :=
  if idx <? 0 then panic else deref (nth_error l (Z.to_nat idx)).

Definition TestGetStatsSummary : Test World unit :=
  '(pod, err) <- CreatePod
     (framework.CreateDummyPodObjectWithPrefix f "nginx-0-"
        ["foo"; "bar"; "baz"]) ;;
  fatalOnError err ;;
  defer (deferredDeletePod pod)
    (p <- deref pod ;;
     err <- WaitUntilPodReady (v1.Namespace p) (v1.Name p) ;;
     fatalOnError err ;;
     '(stats, err) <- GetStatsSummary ;;
     fatalOnError err ;;
     summary <- deref stats ;;
     if negb (v1alpha1.NodeName (v1alpha1.Node summary)
                =? framework.NodeName f)%string
     then Fatal (wrongNodeMessage (framework.NodeName f)
                   (v1alpha1.NodeName (v1alpha1.Node summary)))
     else
       '(idx, err) <- findPodInPodStatsOf stats pod ;;
       fatalOnError err ;;
       let desiredContainerStatsCount := len (v1.Containers (v1.Spec p)) in
       ps <- index (v1alpha1.Pods summary) idx ;;
       let currentContainerStatsCount := len (v1alpha1.Containers ps) in
       if negb (currentContainerStatsCount =? desiredContainerStatsCount)
       then Fatal (wrongCountMessage desiredContainerStatsCount
                     currentContainerStatsCount)
       else ret tt).

(** [if _, err := findPodInPodStats(stats, pod); err != nil
      { t.Fatal(err) }]. *)
Definition mustFind (stats : option v1alpha1.Summary)
  (pod : option v1.Pod) : Test World unit :=
  '(_, err) <- findPodInPodStatsOf stats pod ;;
  fatalOnError err.

(** [if _, err := findPodInPodStats(stats, pod); err == nil
      { t.Fatalf(..) }], with the message of the scenario. *)
Definition mustNotFind (message : v1.Pod -> string)
  (stats : option v1alpha1.Summary) (pod : option v1.Pod)
  : Test World unit :=
  '(_, err) <- findPodInPodStatsOf stats pod ;;
  match err with
  | None => p <- deref pod ;; Fatal (message p)
  | Some _ => ret tt
  end.

Definition TestPodLifecycle : Test World unit :=
  '(pod0, err) <- CreatePod
     (framework.CreateDummyPodObjectWithPrefix f "nginx-0-" ["foo"]) ;;
  fatalOnError err ;;
  defer (deferredDeletePod pod0)
    ('(pod1, err) <- CreatePod
        (framework.CreateDummyPodObjectWithPrefix f "nginx-1-" ["bar"]) ;;
     fatalOnError err ;;
     defer (deferredDeletePod pod1)
       (p0 <- deref pod0 ;;
        err <- WaitUntilPodReady (v1.Namespace p0) (v1.Name p0) ;;
        fatalOnError err ;;
        p1 <- deref pod1 ;;
        err <- WaitUntilPodReady (v1.Namespace p1) (v1.Name p1) ;;
        fatalOnError err ;;
        '(stats, err) <- GetStatsSummary ;;
        fatalOnError err ;;
        mustFind stats pod0 ;;
        mustFind stats pod1 ;;
        goWaitUntilPodDeleted (v1.Namespace p1) (v1.Name p1) ;;
        err <- DeletePod (v1.Namespace p1) (v1.Name p1) ;;
        fatalOnError err ;;
        err <- recvWaitUntilPodDeleted (v1.Namespace p1) (v1.Name p1) ;;
        fatalOnError err ;;
        timeSleep deleteGracePeriodForProvider ;;
        '(stats, err) <- GetStatsSummary ;;
        fatalOnError err ;;
        mustNotFind stillFoundMessage stats pod1 ;;
        goWaitUntilPodDeleted (v1.Namespace p0) (v1.Name p0) ;;
        err <- DeletePodImmediately (v1.Namespace p0) (v1.Name p0) ;;
        fatalOnError err ;;
        err <- recvWaitUntilPodDeleted (v1.Namespace p0) (v1.Name p0) ;;
        fatalOnError err ;;
        timeSleep deleteGracePeriodForProvider ;;
        '(stats, err) <- GetStatsSummary ;;
        fatalOnError err ;;
        mustNotFind stillFoundMessage stats pod0)).

(** The tail the secret and config map scenarios share: start the
    deletion wait, delete the pod, wait for the acknowledgement. *)
Definition deleteAndWait (p : v1.Pod) : Test World unit :=
  goWaitUntilPodDeleted (v1.Namespace p) (v1.Name p) ;;
  err <- DeletePod (v1.Namespace p) (v1.Name p) ;;
  fatalOnError err ;;
  err <- recvWaitUntilPodDeleted (v1.Namespace p) (v1.Name p) ;;
  fatalOnError err.

Definition TestOptionalSecrets : Test World unit :=
  obj <- deref (framework.CreatePodWithOptionalSecrets f) ;;
  '(pod, err) <- CreatePod obj ;;
  defer (deferredDeletePod pod)
    (p <- deref pod ;;
     err <- WaitUntilPodReady (v1.Namespace p) (v1.Name p) ;;
     fatalOnError err ;;
     '(stats, err) <- GetStatsSummary ;;
     fatalOnError err ;;
     mustFind stats pod ;;
     deleteAndWait p).

Definition mandatorySecretsMessage (p : v1.Pod) : string :=
  "Expecting to NOT find pod " ++ dquote ++ v1.Namespace p ++ "/"
    ++ v1.Name p ++ dquote
    ++ " when there are mandatory non existant secrets:".

Definition TestMandatorySecrets : Test World unit :=
  obj <- deref (framework.CreatePodWithMandatorySecrets f) ;;
  '(pod, err) <- CreatePod obj ;;
  '(stats, err) <- GetStatsSummary ;;
  fatalOnError err ;;
  mustNotFind mandatorySecretsMessage stats pod ;;
  p <- deref pod ;;
  deleteAndWait p.

Definition TestOptionalConfigMaps : Test World unit :=
  obj <- deref (framework.CreatePodWithOptionalConfigMaps f) ;;
  '(pod, err) <- CreatePod obj ;;
  defer (deferredDeletePod pod)
    (p <- deref pod ;;
     err <- WaitUntilPodReady (v1.Namespace p) (v1.Name p) ;;
     fatalOnError err ;;
     '(stats, err) <- GetStatsSummary ;;
     fatalOnError err ;;
     mustFind stats pod ;;
     deleteAndWait p).

Definition mandatoryConfigMapsMessage (p : v1.Pod) : string :=
  "Expecting to NOT find pod " ++ dquote ++ v1.Namespace p ++ "/"
    ++ v1.Name p ++ dquote
    ++ " when there are mandatory non existant ConfigMaps:".

Definition TestMandatoryConfigMaps : Test World unit :=
  obj <- deref (framework.CreatePodWithMandatoryConfigMaps f) ;;
  '(pod, err) <- CreatePod obj ;;
  '(stats, err) <- GetStatsSummary ;;
  fatalOnError err ;;
  mustNotFind mandatoryConfigMapsMessage stats pod.

(** A scenario starts on a fresh [testing.T]. *)
Definition start (w : World) : State World :=
  {| world := w; trace := []; failed := false |}.

End Scenarios.

(** ** A scripted world

    A world that answers the calls of a scenario from a script, one answer
    per call, and fails a call the script has no answer for.  The concrete
    runs below are runs against such a world. *)
Module Scripted.

Inductive Answer :=
| APod (pod : option v1.Pod) (err : option error)
| AErr (err : option error)
| AStats (stats : option v1alpha1.Summary) (err : option error).

Definition World : Type := list Answer.

Definition offScript : error := Errorf "no answer in the script".

Definition answerPod (w : World) : (option v1.Pod * option error) * World :=
  match w with
  | APod pod err :: rest => ((pod, err), rest)
  | _ => ((None, Some offScript), w)
  end.

Definition answerErr (w : World) : option error * World :=
  match w with
  | AErr err :: rest => (err, rest)
  | _ => (Some offScript, w)
  end.

Definition answerStats (w : World)
  : (option v1alpha1.Summary * option error) * World :=
  match w with
  | AStats stats err :: rest => ((stats, err), rest)
  | _ => ((None, Some offScript), w)
  end.

Definition container (image : string) : v1.Container :=
  {| v1.Container_Name := image; v1.Image := image; v1.Env := [] |}.

Definition dummy (prefix : string) (images : list string) : v1.Pod :=
  {| v1.Namespace := "default";
     v1.Name := prefix;
     v1.UID := EmptyString;
     v1.Spec := {| v1.Containers := map container images |} |}.

Definition f : framework.Framework World :=
  {| framework.NodeName := "vkubelet-mock-0";
     framework.CreateDummyPodObjectWithPrefix := dummy;
     framework.CreatePod := fun _ => answerPod;
     framework.DeletePod := fun _ _ => answerErr;
     framework.DeletePodImmediately := fun _ _ => answerErr;
     framework.WaitUntilPodReady := fun _ _ => answerErr;
     framework.WaitUntilPodDeleted := fun _ _ => answerErr;
     framework.GetStatsSummary := answerStats |}.

Definition Sleep (d : Z) (w : World) : World := w.

(** The pod the API server returns for a submitted object: the object,
    named and given a uid. *)
Definition created (obj : v1.Pod) (suffix uid : string) : v1.Pod :=
  {| v1.Namespace := v1.Namespace obj;
     v1.Name := v1.Name obj ++ suffix;
     v1.UID := uid;
     v1.Spec := v1.Spec obj |}.

(** The record of a pod in a summary, with [n] container records. *)
Definition statsOf (pod : v1.Pod) (n : nat) : v1alpha1.PodStats :=
  {| v1alpha1.PodRef :=
       {| v1alpha1.Name := v1.Name pod;
          v1alpha1.Namespace := v1.Namespace pod;
          v1alpha1.UID := v1.UID pod |};
     v1alpha1.Containers :=
       repeat {| v1alpha1.ContainerStats_Name := "c" |} n |}.

Definition summary (pods : list v1alpha1.PodStats) : v1alpha1.Summary :=
  {| v1alpha1.Node := {| v1alpha1.NodeName := "vkubelet-mock-0" |};
     v1alpha1.Pods := pods |}.

Definition notFound : error :=
  {| Reason := StatusReasonNotFound; Error := "pods not found" |}.

Definition refused : error :=
  {| Reason := StatusReasonUnknown; Error := "connection refused" |}.

Definition run {A} (t : Test World A) (script : World)
  : Result A * State World :=
  t (start script).

End Scripted.

(** ** Properties of a summary, of a pod object and of a run *)

(** A record of a summary is the record of a pod when the namespace, the
    name and the uid agree. *)
Definition identifies (p : v1alpha1.PodStats) (pod : v1.Pod) : Prop :=
  v1alpha1.Namespace (v1alpha1.PodRef p) = v1.Namespace pod /\
  v1alpha1.Name (v1alpha1.PodRef p) = v1.Name pod /\
  v1alpha1.UID (v1alpha1.PodRef p) = v1.UID pod.

(** A pod is found in a summary when [findPodInPodStats] returns a nil
    error for it. *)
Definition found (summary : v1alpha1.Summary) (pod : v1.Pod) : bool :=
  match snd (findPodInPodStats summary pod) with
  | None => true
  | Some _ => false
  end.

(** A scenario passed: it returned, and [t.Failed()] is false. *)
Definition passed {World : Type} (out : Result unit * State World) : Prop :=
  fst out = Returned tt /\ failed (snd out) = false.

(** The answer of a deferred deletion that the closure lets pass: no error,
    or a not-found error. *)
Definition tolerated (err : option error) : bool :=
  match err with
  | None => true
  | Some e => IsNotFound e
  end.


(** The events the deferred deletion of a pod adds to a run, given the
    answer of [DeletePod]: the call, and the [t.Error] of an error that is
    not a not-found error. *)
Definition teardownEvents (p : v1.Pod) (err : option error) : list Event :=
  EvDeletePod (v1.Namespace p) (v1.Name p) err
    :: match err with
       | Some e => if IsNotFound e then [] else [EvError (Error e)]
       | None => []
       end.

(** The log of [TestPodLifecycle] up to the first summary, every call
    answered without error. *)
Definition lifecycleCreated (obj0 obj1 pod0 pod1 : v1.Pod)
  (before : v1alpha1.Summary) : list Event :=
  [ EvCreatePod obj0 (Some pod0) None;
    EvCreatePod obj1 (Some pod1) None;
    EvWaitUntilPodReady (v1.Namespace pod0) (v1.Name pod0) None;
    EvWaitUntilPodReady (v1.Namespace pod1) (v1.Name pod1) None;
    EvGetStatsSummary (Some before) None ].

(** The log of one deletion of [TestPodLifecycle], graceful or immediate,
    up to the summary fetched after it, every call answered without
    error. *)
Definition deletionLog (immediately : bool) (pod : v1.Pod)
  (after : v1alpha1.Summary) : list Event :=
  [ EvGo (v1.Namespace pod) (v1.Name pod);
    if immediately
    then EvDeletePodImmediately (v1.Namespace pod) (v1.Name pod) None
    else EvDeletePod (v1.Namespace pod) (v1.Name pod) None;
    EvRecv (v1.Namespace pod) (v1.Name pod) None;
    EvSleep deleteGracePeriodForProvider;
    EvGetStatsSummary (Some after) None ].

(** The log of a run of [TestPodLifecycle] in which every call before the
    deferred deletions is answered without error: the pods created, the
    summaries fetched before the deletions, after the graceful one and
    after the immediate one, and the answers of the deferred deletions. *)
Definition lifecycleLog (obj0 obj1 pod0 pod1 : v1.Pod)
  (before afterGraceful afterImmediate : v1alpha1.Summary)
  (r1 r0 : option error) : list Event :=
  (lifecycleCreated obj0 obj1 pod0 pod1 before
   ++ deletionLog false pod1 afterGraceful
   ++ deletionLog true pod0 afterImmediate
   ++ [ EvDeletePod (v1.Namespace pod1) (v1.Name pod1) r1;
        EvDeletePod (v1.Namespace pod0) (v1.Name pod0) r0 ])%list.

(** The log of a run of [TestOptionalSecrets] or [TestOptionalConfigMaps]
    in which every call after the submission and before the deferred
    deletion is answered without error. *)
Definition optionalLog (obj pod : v1.Pod) (err : option error)
  (summary : v1alpha1.Summary) (r : option error) : list Event :=
  [ EvCreatePod obj (Some pod) err;
    EvWaitUntilPodReady (v1.Namespace pod) (v1.Name pod) None;
    EvGetStatsSummary (Some summary) None;
    EvGo (v1.Namespace pod) (v1.Name pod);
    EvDeletePod (v1.Namespace pod) (v1.Name pod) None;
    EvRecv (v1.Namespace pod) (v1.Name pod) None;
    EvDeletePod (v1.Namespace pod) (v1.Name pod) r ].

(** The same for [TestMandatorySecrets]. *)
Definition mandatorySecretsLog (obj pod : v1.Pod) (err : option error)
  (summary : v1alpha1.Summary) : list Event :=
  [ EvCreatePod obj (Some pod) err;
    EvGetStatsSummary (Some summary) None;
    EvGo (v1.Namespace pod) (v1.Name pod);
    EvDeletePod (v1.Namespace pod) (v1.Name pod) None;
    EvRecv (v1.Namespace pod) (v1.Name pod) None ].

(** The same for [TestMandatoryConfigMaps]. *)
Definition mandatoryConfigMapsLog (obj pod : v1.Pod) (err : option error)
  (summary : v1alpha1.Summary) : list Event :=
  [ EvCreatePod obj (Some pod) err;
    EvGetStatsSummary (Some summary) None ].

(** The same for [TestGetStatsSummary]. *)
Definition statsLog (obj pod : v1.Pod) (summary : v1alpha1.Summary)
  (r : option error) : list Event :=
  [ EvCreatePod obj (Some pod) None;
    EvWaitUntilPodReady (v1.Namespace pod) (v1.Name pod) None;
    EvGetStatsSummary (Some summary) None;
    EvDeletePod (v1.Namespace pod) (v1.Name pod) r ].

(** Every receive of a nil error from a deletion wait is followed at once
    by a sleep of [deleteGracePeriodForProvider] and a query of the stats
    summary. *)
Fixpoint graceThenSnapshot (tr : list Event) : Prop :=
  match tr with
  | [] => True
  | EvRecv _ _ None :: rest =>
      match rest with
      | EvSleep d :: EvGetStatsSummary _ _ :: _ =>
          d = deleteGracePeriodForProvider
      | _ => False
      end /\ graceThenSnapshot rest
  | _ :: rest => graceThenSnapshot rest
  end.

(** A log with a sleep in it. *)
Definition sleeps (tr : list Event) : bool :=
  existsb (fun e => match e with EvSleep _ => true | _ => false end) tr.

(** The [Optional] pointers of the external references of an environment
    entry: of its config map key and of its secret key. *)
Definition referenceFlags (e : v1.EnvVar) : list (option bool) :=
  match v1.ValueFrom e with
  | None => []
  | Some src =>
      (match v1.ConfigMapKeyRef src with
       | Some c => [v1.ConfigMap_Optional c]
       | None => []
       end
       ++
       match v1.SecretKeyRef src with
       | Some c => [v1.Secret_Optional c]
       | None => []
       end)%list
  end.

(** A reference is optional when its pointer is set, to [true]. *)
Definition markedOptional (o : option bool) : bool :=
  match o with
  | Some b => b
  | None => false
  end.

Definition hasMandatoryReference (env : list v1.EnvVar) : bool :=
  existsb (fun e => existsb (fun o => negb (markedOptional o))
                      (referenceFlags e)) env.

Definition onlyOptionalReferences (env : list v1.EnvVar) : bool :=
  forallb (fun e => forallb markedOptional (referenceFlags e)) env.

Definition hasReference (env : list v1.EnvVar) : bool :=
  existsb (fun e => negb (len (referenceFlags e) =? 0)) env.


(** ** Concrete pods, summaries and scripts *)
Module Examples.

Import Scripted.

Definition objectOf (o : option v1.Pod) : v1.Pod :=
  match o with
  | Some p => p
  | None => dummy EmptyString []
  end.

(** The pods of the lifecycle scenario, as created. *)
Definition web0 : v1.Pod := created (dummy "nginx-0-" ["foo"]) "x" "uid-0".
Definition web1 : v1.Pod := created (dummy "nginx-1-" ["bar"]) "y" "uid-1".

(** The pod of the stats scenario, with three containers. *)
Definition web3 : v1.Pod :=
  created (dummy "nginx-0-" ["foo"; "bar"; "baz"]) "z" "uid-3".

(** A pod of the same namespace and name as [web0], created later. *)
Definition web0Again : v1.Pod :=
  created (dummy "nginx-0-" ["foo"]) "x" "uid-9".

Definition optionalSecretsObject : v1.Pod :=
  objectOf (framework.CreatePodWithOptionalSecrets f).
Definition optionalSecretsPod : v1.Pod :=
  created optionalSecretsObject "s" "uid-s".

Definition optionalConfigMapsObject : v1.Pod :=
  objectOf (framework.CreatePodWithOptionalConfigMaps f).
Definition optionalConfigMapsPod : v1.Pod :=
  created optionalConfigMapsObject "o" "uid-o".

Definition mandatorySecretsObject : v1.Pod :=
  objectOf (framework.CreatePodWithMandatorySecrets f).
Definition mandatorySecretsPod : v1.Pod :=
  created mandatorySecretsObject "m" "uid-m".

Definition mandatoryConfigMapsObject : v1.Pod :=
  objectOf (framework.CreatePodWithMandatoryConfigMaps f).
Definition mandatoryConfigMapsPod : v1.Pod :=
  created mandatoryConfigMapsObject "c" "uid-c".

(** The zero value of a pod. *)
Definition zeroPod : v1.Pod :=
  {| v1.Namespace := EmptyString; v1.Name := EmptyString;
     v1.UID := EmptyString; v1.Spec := {| v1.Containers := [] |} |}.

(** The lifecycle scenario, every call answered without error, with the
    two summaries fetched after the deletions left open. *)
Definition lifecycleScript (afterGraceful afterImmediate : v1alpha1.Summary)
  : World :=
  [ APod (Some web0) None;
    APod (Some web1) None;
    AErr None;
    AErr None;
    AStats (Some (summary [statsOf web0 1; statsOf web1 1])) None;
    AErr None;
    AErr None;
    AStats (Some afterGraceful) None;
    AErr None;
    AErr None;
    AStats (Some afterImmediate) None;
    AErr (Some notFound);
    AErr (Some notFound) ].

(** The optional secrets scenario, every call answered without error,
    with [n] container records for the pod in the summary. *)
Definition optionalSecretsScript (n : nat) : World :=
  [ APod (Some optionalSecretsPod) None;
    AErr None;
    AStats (Some (summary [statsOf optionalSecretsPod n])) None;
    AErr None;
    AErr None;
    AErr (Some notFound) ].

(** The same for the optional config maps scenario. *)
Definition optionalConfigMapsScript (n : nat) : World :=
  [ APod (Some optionalConfigMapsPod) None;
    AErr None;
    AStats (Some (summary [statsOf optionalConfigMapsPod n])) None;
    AErr None;
    AErr None;
    AErr (Some notFound) ].

(** The stats scenario, with the answer of the deferred deletion left
    open. *)
Definition statsScript (teardown : option error) : World :=
  [ APod (Some web3) None;
    AErr None;
    AStats (Some (summary [statsOf web3 3])) None;
    AErr teardown ].

(** The mandatory config maps scenario, the pod missing from the
    summary. *)
Definition mandatoryConfigMapsScript : World :=
  [ APod (Some mandatoryConfigMapsPod) None;
    AStats (Some (summary [])) None ].

(** The mandatory secrets scenario, the pod missing from the summary. *)
Definition mandatorySecretsScript : World :=
  [ APod (Some mandatorySecretsPod) None;
    AStats (Some (summary [])) None;
    AErr None;
    AErr None ].

(** The mandatory secrets scenario when the submission is refused and
    the API client hands back the zero value of a pod. *)
Definition refusedSubmissionScript : World :=
  [ APod (Some zeroPod) (Some refused);
    AStats (Some (summary [])) None;
    AErr (Some refused) ].

(** The same, the API client handing back a nil pod. *)
Definition refusedSubmissionNilScript : World :=
  [ APod None (Some refused);
    AStats (Some (summary [])) None ].

End Examples.

(** ** Shapes of a log *)

(** An error of a wait for readiness, of a query of the stats summary, of
    an immediate deletion or of a receive from a deletion wait is followed
    at once by the [t.Fatal] of that error. *)
Fixpoint errorsAreFatal (tr : list Event) : Prop :=
  match tr with
  | [] => True
  | e :: rest =>
      match e with
      | EvWaitUntilPodReady _ _ (Some err)
      | EvGetStatsSummary _ (Some err)
      | EvDeletePodImmediately _ _ (Some err)
      | EvRecv _ _ (Some err) => hd_error rest = Some (EvFatal (Error err))
      | _ => True
      end /\ errorsAreFatal rest
  end.

(** A refused submission is followed at once by the [t.Fatal] of its
    error. *)
Fixpoint refusalsAreFatal (tr : list Event) : Prop :=
  match tr with
  | [] => True
  | e :: rest =>
      match e with
      | EvCreatePod _ _ (Some err) =>
          hd_error rest = Some (EvFatal (Error err))
      | _ => True
      end /\ refusalsAreFatal rest
  end.

(** The event asks for the deletion, graceful or immediate, of the pod of
    that namespace and name. *)
Definition deletionOf (ns name : string) (e : Event) : Prop :=
  match e with
  | EvDeletePod ns' name' _
  | EvDeletePodImmediately ns' name' _ => ns' = ns /\ name' = name
  | _ => False
  end.

(** The same, the deletion answered without error. *)
Definition deletionAcceptedOf (ns name : string) (e : Event) : Prop :=
  match e with
  | EvDeletePod ns' name' None
  | EvDeletePodImmediately ns' name' None => ns' = ns /\ name' = name
  | _ => False
  end.

(** Every [go] statement of a deletion wait is followed at once by the
    request to delete the same pod; when the request is refused, the
    [t.Fatal] of its error comes next. *)
Fixpoint goThenDelete (tr : list Event) : Prop :=
  match tr with
  | [] => True
  | e :: rest =>
      match e with
      | EvGo ns name =>
          match rest with
          | d :: rest' =>
              deletionOf ns name d /\
              match d with
              | EvDeletePod _ _ (Some err)
              | EvDeletePodImmediately _ _ (Some err) =>
                  hd_error rest' = Some (EvFatal (Error err))
              | _ => True
              end
          | [] => False
          end
      | _ => True
      end /\ goThenDelete rest
  end.

(** Every receive from a deletion wait comes right after an accepted
    request to delete the same pod, itself right after the [go] statement
    of the wait for that pod.  [prev2] and [prev1] are the two events
    before the log. *)
Fixpoint recvAfterDelete (prev2 prev1 : option Event) (tr : list Event)
  : Prop :=
  match tr with
  | [] => True
  | e :: rest =>
      match e with
      | EvRecv ns name _ =>
          prev2 = Some (EvGo ns name) /\
          match prev1 with
          | Some d => deletionAcceptedOf ns name d
          | None => False
          end
      | _ => True
      end /\ recvAfterDelete prev1 (Some e) rest
  end.

(** An event of a deferred deletion: the call, or the [t.Error] of its
    error. *)
Definition teardownEvent (e : Event) : bool :=
  match e with
  | EvDeletePod _ _ _ | EvError _ => true
  | _ => false
  end.

(** After a [t.Fatal], nothing but deferred deletions. *)
Fixpoint onlyTeardownAfterFatal (tr : list Event) : Prop :=
  match tr with
  | [] => True
  | EvFatal _ :: rest => forallb teardownEvent rest = true
  | _ :: rest => onlyTeardownAfterFatal rest
  end.

(** The four shapes together. *)
Definition wellShaped (tr : list Event) : Prop :=
  errorsAreFatal tr /\ goThenDelete tr /\
  recvAfterDelete None None tr /\ onlyTeardownAfterFatal tr.

(** The framework handed back a nil pod, or a nil summary with a nil
    error. *)
Definition nilHandedBack (e : Event) : bool :=
  match e with
  | EvCreatePod _ None _ => true
  | EvGetStatsSummary None None => true
  | _ => false
  end.

(** A log with the [go] statement of a deletion wait in it. *)
Definition goes (tr : list Event) : bool :=
  existsb (fun e => match e with EvGo _ _ => true | _ => false end) tr.

(** The number of deletions, graceful or immediate, a log asks for. *)
Definition deletions (tr : list Event) : nat :=
  List.length
    (filter (fun e => match e with
                      | EvDeletePod _ _ _
                      | EvDeletePodImmediately _ _ _ => true
                      | _ => false
                      end) tr).

(** After the receive of a nil error from a deletion wait, the log holds
    nothing but deferred deletions: no sleep, no query of the stats
    summary, no [t.Fatal]. *)
Fixpoint endsAtObservedDeletion (tr : list Event) : Prop :=
  match tr with
  | [] => True
  | EvRecv _ _ None :: rest => forallb teardownEvent rest = true
  | _ :: rest => endsAtObservedDeletion rest
  end.

(** The number of queries of the stats summary in a log. *)
Definition summaries (tr : list Event) : nat :=
  List.length
    (filter (fun e => match e with
                      | EvGetStatsSummary _ _ => true
                      | _ => false
                      end) tr).

(** The number of waits for readiness in a log. *)
Definition readinessWaits (tr : list Event) : nat :=
  List.length
    (filter (fun e => match e with
                      | EvWaitUntilPodReady _ _ _ => true
                      | _ => false
                      end) tr).

(** ** The deletion wait as two goroutines

    [basic_test.go], lines 121-138 (and 157-174, 222-239, 261-278,
    313-330): the scenario makes an unbuffered channel, starts a goroutine
    with a [go] statement, asks for the deletion of the pod and receives
    from the channel; the goroutine calls [f.WaitUntilPodDeleted] and then
    sends the error on the channel or closes it.  The log of a scenario
    holds the steps of the scenario's own goroutine; here are the steps of
    both, and the orders in which Go lets them happen: each goroutine takes
    its steps in program order, the goroutine takes none before the [go]
    statement that starts it, and the receive completes only once the
    goroutine has sent or closed.  Nothing else orders a step of the one
    against a step of the other. *)
Module DeletionWait.

Inductive Step :=
| GoStmt
| DeleteCall
| FatalCall
| Recv
| WaitCall
| SendOrClose.

Definition Step_eqb (a b : Step) : bool :=
  match a, b with
  | GoStmt, GoStmt
  | DeleteCall, DeleteCall
  | FatalCall, FatalCall
  | Recv, Recv
  | WaitCall, WaitCall
  | SendOrClose, SendOrClose => true
  | _, _ => false
  end.

(** The steps of the scenario, in program order: the [go] statement, the
    call of [f.DeletePod] or [f.DeletePodImmediately], and the receive; when
    the deletion is refused, [t.Fatal] ends the scenario before the
    receive. *)
Definition scenario (refused : bool) : list Step :=
  [GoStmt; DeleteCall; if refused then FatalCall else Recv].

(** The steps of the goroutine, in program order: the call of
    [f.WaitUntilPodDeleted], then [ch <- err] or [close(ch)]. *)
Definition goroutine : list Step := [WaitCall; SendOrClose].

(** Where the two goroutines are: the steps each has still to take,
    whether the [go] statement has been executed, and whether the goroutine
    has reached its send or its close. *)
Record Config := {
  ahead : list Step;
  body : list Step;
  started : bool;
  signalled : bool
}.

Definition initial (refused : bool) : Config :=
  {| ahead := scenario refused; body := goroutine;
     started := false; signalled := false |}.

(** The scenario takes the next of its steps; the receive waits for the
    send or the close. *)
Definition scenarioStep (c : Config) (s : Step) : option Config :=
  match ahead c with
  | s' :: rest =>
      if Step_eqb s s' && (negb (Step_eqb s Recv) || signalled c)
      then Some {| ahead := rest; body := body c;
                   started := started c || Step_eqb s GoStmt;
                   signalled := signalled c |}
      else None
  | [] => None
  end.

(** The goroutine takes the next of its steps, once it is started. *)
Definition goroutineStep (c : Config) (s : Step) : option Config :=
  match body c with
  | s' :: rest =>
      if Step_eqb s s' && started c
      then Some {| ahead := ahead c; body := rest;
                   started := started c;
                   signalled := signalled c || Step_eqb s SendOrClose |}
      else None
  | [] => None
  end.

Definition step (c : Config) (s : Step) : option Config :=
  match scenarioStep c s with
  | Some c' => Some c'
  | None => goroutineStep c s
  end.

Fixpoint run (c : Config) (l : list Step) : option Config :=
  match l with
  | [] => Some c
  | s :: rest =>
      match step c s with
      | Some c' => run c' rest
      | None => None
      end
  end.

Definition complete (c : Config) : bool :=
  match ahead c, body c with
  | [], [] => true
  | _, _ => false
  end.

(** A schedule: an order of the steps of the two goroutines that Go
    allows, each of them run to its end. *)
Definition schedule (refused : bool) (l : list Step) : bool :=
  match run (initial refused) l with
  | Some c => complete c
  | None => false
  end.

Fixpoint position (s : Step) (l : list Step) : option nat :=
  match l with
  | [] => None
  | s' :: rest =>
      if Step_eqb s s' then Some O else option_map S (position s rest)
  end.

(** Both steps are in the list, the first before the second. *)
Definition before (a b : Step) (l : list Step) : bool :=
  match position a l, position b l with
  | Some i, Some j => (i <? j)%nat
  | _, _ => false
  end.

(** The step of the scenario an event of a log stands for. *)
Definition stepOf (e : Event) : option Step :=
  match e with
  | EvGo _ _ => Some GoStmt
  | EvDeletePod _ _ _ | EvDeletePodImmediately _ _ _ => Some DeleteCall
  | EvRecv _ _ _ => Some Recv
  | EvFatal _ => Some FatalCall
  | _ => None
  end.

Fixpoint stepsOf (tr : list Event) : list Step :=
  match tr with
  | [] => []
  | e :: rest =>
      match stepOf e with
      | Some s => s :: stepsOf rest
      | None => stepsOf rest
      end
  end.

(** The three schedules of an accepted deletion. *)
Definition waitThenDelete : list Step :=
  [GoStmt; WaitCall; SendOrClose; DeleteCall; Recv].

Definition waitAcrossDelete : list Step :=
  [GoStmt; WaitCall; DeleteCall; SendOrClose; Recv].

Definition deleteThenWait : list Step :=
  [GoStmt; DeleteCall; WaitCall; SendOrClose; Recv].

End DeletionWait.


(** ** More concrete frameworks and scripts *)
Module MoreExamples.

Import Scripted.

(** A framework whose dummy pod object has no container. *)
Definition bare : framework.Framework World :=
  {| framework.NodeName := framework.NodeName f;
     framework.CreateDummyPodObjectWithPrefix := fun _ _ => Examples.zeroPod;
     framework.CreatePod := framework.CreatePod f;
     framework.DeletePod := framework.DeletePod f;
     framework.DeletePodImmediately := framework.DeletePodImmediately f;
     framework.WaitUntilPodReady := framework.WaitUntilPodReady f;
     framework.WaitUntilPodDeleted := framework.WaitUntilPodDeleted f;
     framework.GetStatsSummary := framework.GetStatsSummary f |}.

(** The stats scenario, every call answered without error, with [n]
    container records for the pod of three containers. *)
Definition statsCountScript (n : nat) : World :=
  [ APod (Some Examples.web3) None;
    AErr None;
    AStats (Some (summary [statsOf Examples.web3 n])) None;
    AErr None ].

(** What a provider that runs a pod all the same answers after a
    scenario: the pod is ready, and it is in the stats summary. *)
Definition readyAndReported (pod : v1.Pod) : World :=
  [ AErr None;
    AStats (Some (summary [statsOf pod 1])) None ].

End MoreExamples.

(** ** The responses of the scope listing

    [vic/lib/apiservers/portlayer/client/scopes/list_responses.go]: the
    reader of the responses to [GET /scopes/{idName}].  The body of a
    response, the models and the consumer belong to the client library:
    they are left open here, with the errors of a consumer and the test
    that tells [io.EOF] among them. *)
Module scopes.

Section ListResponses.

Context {Body ScopeConfig ModelsError ConsumerError : Type}.
(** [new(models.Error)]. *)
Variable zeroError : ModelsError.
(** [err == io.EOF]. *)
Variable isEOF : ConsumerError -> bool.
(** [%+v] of the payloads. *)
Variable showScopes : list (option ScopeConfig) -> string.
Variable showError : option ModelsError -> string.

(** [runtime.ClientResponse]. *)
Record ClientResponse := {
  Code : Z;
  ResponseBody : Body
}.

(** [runtime.Consumer]: [Consume(reader, data)] writes [data] and returns
    an error, for the two kinds of payload the reader asks for. *)
Record Consumer := {
  ConsumeScopes :
    Body -> list (option ScopeConfig)
    -> list (option ScopeConfig) * option ConsumerError;
  ConsumeError :
    Body -> ModelsError -> ModelsError * option ConsumerError
}.

Record ListOK := { ListOK_Payload : list (option ScopeConfig) }.

Record ListNotFound := { ListNotFound_Payload : option ModelsError }.

Record ListDefault := {
  _statusCode : Z;
  ListDefault_Payload : option ModelsError
}.

Definition NewListOK : ListOK := {| ListOK_Payload := [] |}.

Definition NewListNotFound : ListNotFound :=
  {| ListNotFound_Payload := None |}.

Definition NewListDefault (code : Z) : ListDefault :=
  {| _statusCode := code; ListDefault_Payload := None |}.

(** The method [Code] of [ListDefault]. *)
Definition ListDefault_Code (o : ListDefault) : Z := _statusCode o.

Definition operation : string := "[GET /scopes/{idName}][".

Definition ListOK_Error (o : ListOK) : string :=
  operation ++ itoa 200 ++ "] listOK  " ++ showScopes (ListOK_Payload o).

Definition ListNotFound_Error (o : ListNotFound) : string :=
  operation ++ itoa 404 ++ "] listNotFound  "
    ++ showError (ListNotFound_Payload o).

Definition ListDefault_Error (o : ListDefault) : string :=
  operation ++ itoa (_statusCode o) ++ "] List default  "
    ++ showError (ListDefault_Payload o).

(** [if err := consumer.Consume(..); err != nil && err != io.EOF
       { return err }; return nil]. *)
Definition unlessEOF (err : option ConsumerError) : option ConsumerError :=
  match err with
  | Some e => if negb (isEOF e) then Some e else None
  | None => None
  end.

Definition ListOK_readResponse (o : ListOK) (response : ClientResponse)
  (consumer : Consumer) : ListOK * option ConsumerError :=
  let (payload, err) :=
    ConsumeScopes consumer (ResponseBody response) (ListOK_Payload o) in
  ({| ListOK_Payload := payload |}, unlessEOF err).

Definition ListNotFound_readResponse (o : ListNotFound)
  (response : ClientResponse) (consumer : Consumer)
  : ListNotFound * option ConsumerError :=
  let (payload, err) :=
    ConsumeError consumer (ResponseBody response) zeroError in
  ({| ListNotFound_Payload := Some payload |}, unlessEOF err).

Definition ListDefault_readResponse (o : ListDefault)
  (response : ClientResponse) (consumer : Consumer)
  : ListDefault * option ConsumerError :=
  let (payload, err) :=
    ConsumeError consumer (ResponseBody response) zeroError in
  ({| _statusCode := _statusCode o; ListDefault_Payload := Some payload |},
   unlessEOF err).

(** The value [ReadResponse] returns beside a nil error. *)
Inductive Result :=
| ResultOK (o : ListOK)
| ResultDefault (o : ListDefault).

(** The error [ReadResponse] returns: the error of the consumer, or the
    response itself. *)
Inductive Failure :=
| FailConsumer (e : ConsumerError)
| FailNotFound (o : ListNotFound)
| FailDefault (o : ListDefault).

(** The method [ReadResponse] of [ListReader]: the [switch] on
    [response.Code()]. *)
Definition ReadResponse (response : ClientResponse) (consumer : Consumer)
  : option Result * option Failure :=
  if Code response =? 200 then
    let (result, err) := ListOK_readResponse NewListOK response consumer in
    match err with
    | Some e => (None, Some (FailConsumer e))
    | None => (Some (ResultOK result), None)
    end
  else if Code response =? 404 then
    let (result, err) :=
      ListNotFound_readResponse NewListNotFound response consumer in
    match err with
    | Some e => (None, Some (FailConsumer e))
    | None => (None, Some (FailNotFound result))
    end
  else
    let (result, err) :=
      ListDefault_readResponse (NewListDefault (Code response))
        response consumer in
    match err with
    | Some e => (None, Some (FailConsumer e))
    | None =>
        if Z.quot (Code response) 100 =? 2
        then (Some (ResultDefault result), None)
        else (None, Some (FailDefault result))
    end.

(** [(error).Error()] of what [ReadResponse] returns as an error, the
    message of a consumer error being the consumer's. *)
Definition Failure_Error (describe : ConsumerError -> string)
  (e : Failure) : string :=
  match e with
  | FailConsumer e => describe e
  | FailNotFound o => ListNotFound_Error o
  | FailDefault o => ListDefault_Error o
  end.

(** The error of the consumer on the payload a response of this code is
    read into, as the reader takes it. *)
Definition consumerFailure (response : ClientResponse) (consumer : Consumer)
  : option ConsumerError :=
  if Code response =? 200
  then unlessEOF (snd (ConsumeScopes consumer (ResponseBody response) []))
  else unlessEOF (snd (ConsumeError consumer (ResponseBody response)
                         zeroError)).

(** What the consumer itself answers when it is handed the body of a
    response and the payload of its status code: the error of
    [consumer.Consume], before the reader looks at it. *)
Definition consumed (response : ClientResponse) (consumer : Consumer)
  : option ConsumerError :=
  if Code response =? 200
  then snd (ConsumeScopes consumer (ResponseBody response) [])
  else snd (ConsumeError consumer (ResponseBody response) zeroError).

(** A consumer that writes what the given one writes and never reports an
    error. *)
Definition quiet (consumer : Consumer) : Consumer :=
  {| ConsumeScopes := fun body data =>
       (fst (ConsumeScopes consumer body data), None);
     ConsumeError := fun body data =>
       (fst (ConsumeError consumer body data), None) |}.

End ListResponses.

(** A consumer of text bodies: the body is the payload; an empty body is
    [io.EOF], and the body that is a lone opening brace is a syntax
    error. *)
Definition eof : string := "EOF".

Definition syntaxError : string := "unexpected end of JSON input".

Definition textConsumer : @Consumer string string string string :=
  {| ConsumeScopes := fun body data =>
       if (body =? EmptyString)%string then (data, Some eof)
       else if (body =? "{")%string then (data, Some syntaxError)
       else ([Some body], None);
     ConsumeError := fun body data =>
       if (body =? EmptyString)%string then (data, Some eof)
       else if (body =? "{")%string then (data, Some syntaxError)
       else (body, None) |}.

Definition textIsEOF (e : string) : bool := (e =? eof)%string.

Definition textOfError (o : option string) : string :=
  match o with
  | Some s => s
  | None => "<nil>"
  end.

End scopes.

(** * The correlator: what it returns *)

Lemma samePod_true p pod : samePod p pod = true <-> identifies p pod.
Proof.
  unfold samePod, identifies.
  rewrite !andb_true_iff, !String.eqb_eq. tauto.
Qed.

Lemma samePod_false p pod : samePod p pod = false <-> ~ identifies p pod.
Proof.
  rewrite <- samePod_true. destruct (samePod p pod); split; congruence.
Qed.

(** The loop stops at the first record of the pod: it splits the records
    there, or finds none. *)
Lemma rangePods_split pods : forall i pod,
  match rangePods i pods pod with
  | Some j =>
      exists pre p suf,
        pods = (pre ++ p :: suf)%list /\ identifies p pod /\
        (forall q, In q pre -> ~ identifies q pod) /\
        j = i + len pre
  | None => forall q, In q pods -> ~ identifies q pod
  end.
Proof.
  induction pods as [|p rest IH]; intros i pod; simpl.
  - intros q [].
  - destruct (samePod p pod) eqn:E.
    + exists [], p, rest. refine (conj eq_refl (conj _ (conj _ _))).
      * now apply samePod_true.
      * intros q [].
      * unfold len; simpl; lia.
    + specialize (IH (i + 1) pod).
      destruct (rangePods (i + 1) rest pod) as [j|].
      * destruct IH as (pre & p' & suf & -> & Hp & Hpre & ->).
        exists (p :: pre), p', suf.
        refine (conj eq_refl (conj Hp (conj _ _))).
        -- intros q [<-|Hq]; [now apply samePod_false | now apply Hpre].
        -- unfold len; cbn [List.length]; lia.
      * intros q [<-|Hq]; [now apply samePod_false | now apply IH].
Qed.

Lemma rangePods_first pre p suf pod : forall i,
  identifies p pod ->
  (forall q, In q pre -> ~ identifies q pod) ->
  rangePods i (pre ++ p :: suf)%list pod = Some (i + len pre).
Proof.
  induction pre as [|q pre IH]; intros i Hp Hpre; simpl.
  - apply samePod_true in Hp. rewrite Hp. f_equal. unfold len; simpl; lia.
  - assert (Hq : samePod q pod = false)
      by (apply samePod_false, Hpre; now left).
    rewrite Hq, IH; trivial.
    + f_equal. unfold len; cbn [List.length]; lia.
    + intros r Hr. apply Hpre. now right.
Qed.

Lemma rangePods_none pods pod : forall i,
  (forall q, In q pods -> ~ identifies q pod) ->
  rangePods i pods pod = None.
Proof.
  induction pods as [|p rest IH]; intros i H; simpl; trivial.
  assert (Hp : samePod p pod = false) by (apply samePod_false, H; now left).
  rewrite Hp. apply IH. intros q Hq. apply H. now right.
Qed.

Lemma nth_error_len {A} (pre : list A) p suf :
  nth_error (pre ++ p :: suf)%list (Z.to_nat (len pre)) = Some p.
Proof.
  unfold len. rewrite Nat2Z.id, nth_error_app2 by lia.
  now rewrite Nat.sub_diag.
Qed.

(** C2.  [findPodInPodStats] reports a pod only at a record whose
    namespace, name and uid all equal those of the pod; and where every
    record of the summary that has the namespace and the name of the pod
    has another uid, it reports the pod as not found. *)
Theorem findPodInPodStats_identity_exact :
  forall (summary : v1alpha1.Summary) (pod : v1.Pod),
    (forall i, findPodInPodStats summary pod = (i, None) ->
       exists p, 0 <= i /\
                 nth_error (v1alpha1.Pods summary) (Z.to_nat i) = Some p /\
                 v1alpha1.Namespace (v1alpha1.PodRef p) = v1.Namespace pod /\
                 v1alpha1.Name (v1alpha1.PodRef p) = v1.Name pod /\
                 v1alpha1.UID (v1alpha1.PodRef p) = v1.UID pod) /\
    ((forall p, In p (v1alpha1.Pods summary) ->
        v1alpha1.Namespace (v1alpha1.PodRef p) = v1.Namespace pod ->
        v1alpha1.Name (v1alpha1.PodRef p) = v1.Name pod ->
        v1alpha1.UID (v1alpha1.PodRef p) <> v1.UID pod) ->
     findPodInPodStats summary pod
       = (-1, Some (Errorf (notFoundMessage pod)))).
Proof.
  intros summary pod. unfold findPodInPodStats.
  pose proof (rangePods_split (v1alpha1.Pods summary) 0 pod) as H.
  split.
  - intros i Hi.
    destruct (rangePods 0 (v1alpha1.Pods summary) pod) as [j|];
      [|discriminate].
    destruct H as (pre & p & suf & Hpods & Hp & _ & ->).
    injection Hi as <-. exists p. rewrite Hpods. split; [|split].
    + unfold len. lia.
    + replace (0 + len pre) with (len pre) by lia. apply nth_error_len.
    + exact Hp.
  - intros Huid. rewrite rangePods_none; trivial.
    intros q Hq (Hns & Hname & Hu). exact (Huid q Hq Hns Hname Hu).
Qed.


Lemma findPodInPodStats_identity_exact_witness :
  findPodInPodStats
    (Scripted.summary [Scripted.statsOf Examples.web0Again 1]) Examples.web0
  = (-1, Some (Errorf (notFoundMessage Examples.web0))).
Proof.
  apply (proj2 (findPodInPodStats_identity_exact
                  (Scripted.summary [Scripted.statsOf Examples.web0Again 1])
                  Examples.web0)).
  intros p [<-|[]] _ _. cbn. discriminate.
Defined.

(** What [findPodInPodStats] returns: the length of the records before
    the first one of the pod with a nil error, or [-1] with an error when
    no record is of the pod. *)
Lemma findPodInPodStats_cases (summary : v1alpha1.Summary) (pod : v1.Pod) :
  (exists pre p suf,
      v1alpha1.Pods summary = (pre ++ p :: suf)%list /\
      identifies p pod /\
      (forall q, In q pre -> ~ identifies q pod) /\
      findPodInPodStats summary pod = (len pre, None))
  \/
  ((forall q, In q (v1alpha1.Pods summary) -> ~ identifies q pod) /\
   findPodInPodStats summary pod
     = (-1, Some (Errorf (notFoundMessage pod)))).
Proof.
  unfold findPodInPodStats.
  pose proof (rangePods_split (v1alpha1.Pods summary) 0 pod) as H.
  destruct (rangePods 0 (v1alpha1.Pods summary) pod) as [j|].
  - left. destruct H as (pre & p & suf & Hpods & Hp & Hpre & ->).
    exists pre, p, suf. now rewrite Z.add_0_l.
  - right. now split.
Qed.

(** C10.  [findPodInPodStats] returns the smallest index of a record of
    the pod with a nil error, or [-1] with an error exactly when the summary
    has no record of the pod; and the records after the first one of the pod
    play no part in what it returns. *)
Theorem findPodInPodStats_first_match :
  forall (summary : v1alpha1.Summary) (pod : v1.Pod),
    ((exists pre p suf,
        v1alpha1.Pods summary = (pre ++ p :: suf)%list /\
        identifies p pod /\
        (forall q, In q pre -> ~ identifies q pod) /\
        findPodInPodStats summary pod = (len pre, None))
     \/
     ((forall q, In q (v1alpha1.Pods summary) -> ~ identifies q pod) /\
      findPodInPodStats summary pod
        = (-1, Some (Errorf (notFoundMessage pod))))) /\
    (forall pre p suf suf',
        v1alpha1.Pods summary = (pre ++ p :: suf)%list ->
        identifies p pod ->
        (forall q, In q pre -> ~ identifies q pod) ->
        findPodInPodStats
          {| v1alpha1.Node := v1alpha1.Node summary;
             v1alpha1.Pods := (pre ++ p :: suf')%list |} pod
        = findPodInPodStats summary pod).
Proof.
  intros summary pod. split.
  - apply findPodInPodStats_cases.
  - intros pre p suf suf' Hpods Hp Hpre. unfold findPodInPodStats.
    rewrite Hpods. cbn [v1alpha1.Pods].
    now rewrite !rangePods_first.
Qed.

Lemma findPodInPodStats_first_match_witness :
  findPodInPodStats
    (Scripted.summary
       [Scripted.statsOf Examples.web1 1; Scripted.statsOf Examples.web0 1])
    Examples.web0
  = findPodInPodStats
      (Scripted.summary
         [Scripted.statsOf Examples.web1 1; Scripted.statsOf Examples.web0 1;
          Scripted.statsOf Examples.web0 2])
      Examples.web0.
Proof.
  apply (proj2 (findPodInPodStats_first_match
                  (Scripted.summary
                     [Scripted.statsOf Examples.web1 1;
                      Scripted.statsOf Examples.web0 1;
                      Scripted.statsOf Examples.web0 2])
                  Examples.web0)
           [Scripted.statsOf Examples.web1 1]
           (Scripted.statsOf Examples.web0 1)
           [Scripted.statsOf Examples.web0 2] []).
  - reflexivity.
  - repeat split.
  - intros q [<-|[]] (_ & H & _). discriminate H.
Defined.

(** The first record of the pod is at the least index that holds one. *)
Lemma findPodInPodStats_least summary pod i j q :
  findPodInPodStats summary pod = (i, None) ->
  nth_error (v1alpha1.Pods summary) j = Some q ->
  identifies q pod ->
  i <= Z.of_nat j.
Proof.
  intros Hi Hj Hq.
  destruct (findPodInPodStats_cases summary pod) as [H|H].
  - destruct H as (pre & p & suf & Hpods & _ & Hpre & Hfind).
    rewrite Hfind in Hi. injection Hi as <-.
    destruct (Nat.lt_ge_cases j (List.length pre)) as [Hlt|Hge].
    + exfalso. rewrite Hpods, nth_error_app1 in Hj by exact Hlt.
      apply nth_error_In in Hj. exact (Hpre q Hj Hq).
    + unfold len. lia.
  - destruct H as [_ Hfind]. rewrite Hfind in Hi. discriminate.
Qed.

Lemma found_true summary pod :
  found summary pod = true <->
  exists p, In p (v1alpha1.Pods summary) /\ identifies p pod.
Proof.
  unfold found.
  destruct (findPodInPodStats_cases summary pod) as [H|H].
  - destruct H as (pre & p & suf & Hpods & Hp & _ & ->). cbn.
    split; trivial. intros _. exists p. split; trivial.
    rewrite Hpods. apply in_elt.
  - destruct H as [Hnone ->]. cbn. split; [discriminate|].
    intros (p & Hin & Hp). destruct (Hnone p Hin Hp).
Qed.

Lemma found_false summary pod :
  found summary pod = false <->
  forall p, In p (v1alpha1.Pods summary) -> ~ identifies p pod.
Proof.
  pose proof (found_true summary pod) as H.
  destruct (found summary pod); split; trivial.
  - discriminate.
  - intros Hnone. destruct (proj1 H eq_refl) as (p & Hin & Hp).
    destruct (Hnone p Hin Hp).
  - intros _ p Hin Hp. assert (false = true) by (apply H; eauto).
    discriminate.
Qed.


(** C3, as the code has it.  When no record of the summary is of the pod,
    [findPodInPodStats] does return, with the index [-1] and a non-nil
    error; the caller decides what the error means: [mustFind] fails the
    scenario with it, [mustNotFind] goes on. *)
Theorem findPodInPodStats_absent_is_an_error_value
  {World : Type} (summary : v1alpha1.Summary) (pod : v1.Pod)
  (message : v1.Pod -> string) (s : State World) :
  (forall q, In q (v1alpha1.Pods summary) -> ~ identifies q pod) ->
  findPodInPodStats summary pod = (-1, Some (Errorf (notFoundMessage pod))) /\
  mustFind (Some summary) (Some pod) s
    = (Exited Goexit,
       {| world := world s;
          trace := (trace s ++ [EvFatal (notFoundMessage pod)])%list;
          failed := true |}) /\
  mustNotFind message (Some summary) (Some pod) s = (Returned tt, s).
Proof.
  intros Hnone.
  destruct (findPodInPodStats_cases summary pod) as [H|[_ H]].
  - destruct H as (pre & p & suf & Hpods & Hp & _).
    destruct (Hnone p); trivial. rewrite Hpods. apply in_elt.
  - split; [exact H|].
    unfold mustFind, mustNotFind, findPodInPodStatsOf, bind, deref, ret.
    rewrite H. split; reflexivity.
Qed.

Lemma findPodInPodStats_absent_is_an_error_value_witness :
  findPodInPodStats (Scripted.summary []) Examples.web0
    = (-1, Some (Errorf (notFoundMessage Examples.web0))) /\
  mustFind (Some (Scripted.summary [])) (Some Examples.web0)
    (start (Examples.statsScript None))
    = (Exited Goexit,
       {| world := Examples.statsScript None;
          trace := [EvFatal (notFoundMessage Examples.web0)];
          failed := true |}) /\
  mustNotFind stillFoundMessage (Some (Scripted.summary []))
    (Some Examples.web0) (start (Examples.statsScript None))
    = (Returned tt, start (Examples.statsScript None)).
Proof.
  apply (findPodInPodStats_absent_is_an_error_value
           (Scripted.summary []) Examples.web0 stillFoundMessage
           (start (Examples.statsScript None))).
  intros q [].
Defined.

(** C3, as the claim has it, fails: on a summary without records the
    correlator returns an error. *)
Lemma findPodInPodStats_absence_raises :
  snd (findPodInPodStats (Scripted.summary []) Examples.web0)
  = Some {| Reason := StatusReasonUnknown;
            Error := "failed to find pod " ++ dquote ++ "default/nginx-0-x"
                       ++ dquote ++ " in the slice of pod stats" |}.
Proof. reflexivity. Qed.

(** * The scenarios: what a run does *)

(** Case analysis on every answer of the world, along one run. *)
Ltac unfold_scenario :=
  cbv [TestGetStatsSummary TestPodLifecycle TestOptionalSecrets
       TestMandatorySecrets TestOptionalConfigMaps TestMandatoryConfigMaps
       deleteAndWait mustFind mustNotFind deferredDeletePod
       findPodInPodStatsOf fatalOnError index
       CreatePod WaitUntilPodReady GetStatsSummary DeletePod
       DeletePodImmediately goWaitUntilPodDeleted recvWaitUntilPodDeleted
       timeSleep receive deletionWaiter
       bind ret defer deref panic Fatal Error_ log start
       world trace failed app passed fst snd negb] in *.

Ltac case_innermost x :=
  lazymatch x with
  | context [match ?y with _ => _ end] => case_innermost y
  | _ => destruct x eqn:?
  end.

Ltac step_world :=
  match goal with
  | H : true = false |- _ => discriminate H
  | H : Exited _ = Returned _ |- _ => discriminate H
  | H : _ /\ _ |- _ => destruct H
  | H : context [match ?x with _ => _ end] |- _ =>
      case_innermost x; cbv beta iota zeta in *
  | |- context [match ?x with _ => _ end] =>
      case_innermost x; cbv beta iota zeta in *
  end.

Ltac run_scenario := intros; unfold_scenario; repeat step_world.

Ltac found_from_run :=
  unfold found;
  repeat match goal with
    | H : findPodInPodStats _ _ = _ |- _ => rewrite H
    end;
  reflexivity.


(** Reading an equation between logs of events. *)
Ltac inv_events :=
  repeat match goal with
    | H : @eq (list Event) (_ :: _) (_ :: _) |- _ =>
        injection H; clear H; intros
    | H : @eq (list Event) [] (_ :: _) |- _ => discriminate H
    | H : @eq (list Event) (_ :: _) [] |- _ => discriminate H
    | H : @eq Event _ _ |- _ =>
        first [discriminate H | injection H; clear H; intros]
    | H : @eq (option _) (Some _) (Some _) |- _ =>
        injection H; clear H; intros
    | H : @eq (option _) None (Some _) |- _ => discriminate H
    | H : @eq (option _) (Some _) None |- _ => discriminate H
    end;
  subst.

Ltac tolerated_from_run :=
  unfold tolerated; first [reflexivity | assumption].

(** The answer of the deferred deletion that ends a log, and the log
    before it. *)
Ltac last_teardown L k :=
  lazymatch L with
  | context [EvDeletePod _ _ ?r :: EvError _ :: nil] =>
      let L' := eval cbn [removelast] in (removelast (removelast L)) in
      k L' r
  | context [EvDeletePod _ _ ?r :: nil] =>
      let L' := eval cbn [removelast] in (removelast L) in
      k L' r
  end.

Ltac teardown_equation :=
  unfold teardownEvents;
  repeat match goal with
    | H : IsNotFound _ = _ |- _ => rewrite H
    end;
  reflexivity.

Ltac one_teardown :=
  fold (@app Event);
  lazymatch goal with
  | |- exists body r, ?L = (body ++ teardownEvents _ r)%list =>
      last_teardown L ltac:(fun L' r => exists L', r; teardown_equation)
  end.

Ltac two_teardowns :=
  fold (@app Event);
  lazymatch goal with
  | |- exists body r1 r0,
         ?L = (body ++ teardownEvents _ r1 ++ teardownEvents _ r0)%list =>
      last_teardown L ltac:(fun L' r0 =>
        last_teardown L' ltac:(fun L'' r1 =>
          exists L'', r1, r0; teardown_equation))
  end.

Ltac fatal_then_teardowns :=
  fold (@app Event);
  lazymatch goal with
  | |- exists r1 r0, ?L = _ =>
      last_teardown L ltac:(fun L' r0 =>
        last_teardown L' ltac:(fun L'' r1 =>
          exists r1, r0; teardown_equation))
  end.

Ltac found_against_run :=
  repeat match goal with
    | H : findPodInPodStats _ _ = _, H' : context [findPodInPodStats] |- _ =>
        rewrite H in H'; cbn in H'
    end.

(** Counting the queries and the waits of a log, and reading what follows
    a receive in it. *)
Ltac after_receive :=
  cbv [endsAtObservedDeletion summaries readinessWaits filter List.length
       forallb teardownEvent andb];
  repeat apply conj;
  first [ reflexivity
        | lia
        | let H := fresh in
          intros ? ? H; cbn [In] in H;
          first [ reflexivity
                | exfalso;
                  repeat match goal with
                    | H : _ \/ _ |- _ => destruct H
                    | H : False |- _ => destruct H
                    | H : @eq Event _ _ |- _ => discriminate H
                    end ] ].

Section ScenarioFacts.

Context {World : Type}.
Variable f : framework.Framework World.
Variable Sleep : Z -> World -> World.

Local Abbreviation obj0 :=
  (framework.CreateDummyPodObjectWithPrefix f "nginx-0-" ["foo"]).
Local Abbreviation obj1 :=
  (framework.CreateDummyPodObjectWithPrefix f "nginx-1-" ["bar"]).
Local Abbreviation obj3 :=
  (framework.CreateDummyPodObjectWithPrefix f "nginx-0-"
     ["foo"; "bar"; "baz"]).

(** A run of [TestPodLifecycle] that passes is the full sequence of its
    steps, every call answered without error; both pods are in the first
    summary, and each deleted pod is missing from the summary fetched
    after its deletion. *)
Lemma TestPodLifecycle_passed (w : World) :
  passed (TestPodLifecycle f Sleep (start w)) ->
  exists pod0 pod1 before afterGraceful afterImmediate r1 r0,
    trace (snd (TestPodLifecycle f Sleep (start w))) =
      lifecycleLog obj0 obj1 pod0 pod1 before afterGraceful
        afterImmediate r1 r0 /\
    (found before pod0 = true /\ found before pod1 = true) /\
    (found afterGraceful pod1 = false /\
     found afterImmediate pod0 = false) /\
    (tolerated r1 = true /\ tolerated r0 = true).
Proof.
  run_scenario.
  all: try discriminate.
  all: do 7 eexists; split; [reflexivity|].
  all: repeat split; first [found_from_run | tolerated_from_run].
Qed.

(** On every run of [TestPodLifecycle], a deletion wait that returns is
    followed by the sleep and by a query of the stats summary. *)
Lemma TestPodLifecycle_grace (w : World) :
  graceThenSnapshot (trace (snd (TestPodLifecycle f Sleep (start w)))).
Proof.
  run_scenario.
  all: cbn [graceThenSnapshot]; repeat split.
Qed.

(** A run of [TestOptionalSecrets] that passes. *)
Lemma TestOptionalSecrets_passed (w : World) :
  passed (TestOptionalSecrets f (start w)) ->
  exists obj pod err summary r,
    framework.CreatePodWithOptionalSecrets f = Some obj /\
    trace (snd (TestOptionalSecrets f (start w))) =
      optionalLog obj pod err summary r /\
    found summary pod = true /\
    tolerated r = true.
Proof.
  run_scenario.
  all: try discriminate.
  all: do 5 eexists; split; [reflexivity|]; split; [reflexivity|].
  all: split; first [found_from_run | tolerated_from_run].
Qed.

(** A run of [TestOptionalConfigMaps] that passes. *)
Lemma TestOptionalConfigMaps_passed (w : World) :
  passed (TestOptionalConfigMaps f (start w)) ->
  exists obj pod err summary r,
    framework.CreatePodWithOptionalConfigMaps f = Some obj /\
    trace (snd (TestOptionalConfigMaps f (start w))) =
      optionalLog obj pod err summary r /\
    found summary pod = true /\
    tolerated r = true.
Proof.
  run_scenario.
  all: try discriminate.
  all: do 5 eexists; split; [reflexivity|]; split; [reflexivity|].
  all: split; first [found_from_run | tolerated_from_run].
Qed.

(** A run of [TestMandatorySecrets] that passes. *)
Lemma TestMandatorySecrets_passed (w : World) :
  passed (TestMandatorySecrets f (start w)) ->
  exists obj pod err summary,
    framework.CreatePodWithMandatorySecrets f = Some obj /\
    trace (snd (TestMandatorySecrets f (start w))) =
      mandatorySecretsLog obj pod err summary /\
    found summary pod = false.
Proof.
  run_scenario.
  all: try discriminate.
  all: do 4 eexists; split; [reflexivity|]; split; [reflexivity|].
  all: found_from_run.
Qed.

(** A run of [TestMandatoryConfigMaps] that passes. *)
Lemma TestMandatoryConfigMaps_passed (w : World) :
  passed (TestMandatoryConfigMaps f (start w)) ->
  exists obj pod err summary,
    framework.CreatePodWithMandatoryConfigMaps f = Some obj /\
    trace (snd (TestMandatoryConfigMaps f (start w))) =
      mandatoryConfigMapsLog obj pod err summary /\
    found summary pod = false.
Proof.
  run_scenario.
  all: try discriminate.
  all: do 4 eexists; split; [reflexivity|]; split; [reflexivity|].
  all: found_from_run.
Qed.

(** A pod found in the summary [TestMandatorySecrets] fetched ends the
    scenario there, failed. *)
Lemma TestMandatorySecrets_found (w : World) obj pod err summary rest :
  trace (snd (TestMandatorySecrets f (start w)))
    = EvCreatePod obj (Some pod) err
        :: EvGetStatsSummary (Some summary) None :: rest ->
  found summary pod = true ->
  fst (TestMandatorySecrets f (start w)) = Exited Goexit /\
  failed (snd (TestMandatorySecrets f (start w))) = true /\
  rest = [EvFatal (mandatorySecretsMessage pod)].
Proof.
  unfold found. run_scenario.
  all: inv_events.
  all: found_against_run.
  all: try discriminate.
  all: repeat split.
Qed.

(** The same for [TestMandatoryConfigMaps]. *)
Lemma TestMandatoryConfigMaps_found (w : World) obj pod err summary rest :
  trace (snd (TestMandatoryConfigMaps f (start w)))
    = EvCreatePod obj (Some pod) err
        :: EvGetStatsSummary (Some summary) None :: rest ->
  found summary pod = true ->
  fst (TestMandatoryConfigMaps f (start w)) = Exited Goexit /\
  failed (snd (TestMandatoryConfigMaps f (start w))) = true /\
  rest = [EvFatal (mandatoryConfigMapsMessage pod)].
Proof.
  unfold found. run_scenario.
  all: inv_events.
  all: found_against_run.
  all: try discriminate.
  all: repeat split.
Qed.

(** A run of [TestGetStatsSummary] that passes: the summary is of the
    node, the pod is in it, with as many container records as the pod has
    containers. *)
Lemma TestGetStatsSummary_passed (w : World) :
  passed (TestGetStatsSummary f (start w)) ->
  exists pod summary idx record r,
    trace (snd (TestGetStatsSummary f (start w))) =
      statsLog obj3 pod summary r /\
    v1alpha1.NodeName (v1alpha1.Node summary) = framework.NodeName f /\
    findPodInPodStats summary pod = (idx, None) /\
    nth_error (v1alpha1.Pods summary) (Z.to_nat idx) = Some record /\
    len (v1alpha1.Containers record) = len (v1.Containers (v1.Spec pod)) /\
    tolerated r = true.
Proof.
  run_scenario.
  all: try discriminate.
  all: do 5 eexists; split; [reflexivity|].
  all: repeat match goal with
         | H : (_ =? _)%string = true |- _ => apply String.eqb_eq in H
         | H : (_ =? _) = true |- _ => apply Z.eqb_eq in H
         end.
  all: repeat split; first [eassumption | tolerated_from_run].
Qed.

(** What the deferred closure does: it calls [DeletePod] on the namespace
    and the name of the pod, reports an error that is not a not-found error
    through [t.Error], and returns. *)
Lemma deferredDeletePod_run (p : v1.Pod) (s : State World) :
  deferredDeletePod f (Some p) s
  = (Returned tt,
     {| world :=
          snd (framework.DeletePod f (v1.Namespace p) (v1.Name p) (world s));
        trace :=
          (trace s ++ teardownEvents p
             (fst (framework.DeletePod f (v1.Namespace p) (v1.Name p)
                     (world s))))%list;
        failed :=
          failed s
          || negb (tolerated
                     (fst (framework.DeletePod f (v1.Namespace p) (v1.Name p)
                             (world s)))) |}).
Proof.
  unfold deferredDeletePod, bind, deref, ret, DeletePod, Error_, log,
    teardownEvents, tolerated.
  destruct (framework.DeletePod f (v1.Namespace p) (v1.Name p) (world s))
    as [[e|] w']; cbn [fst snd world trace failed].
  - destruct (IsNotFound e); cbn.
    + now rewrite orb_false_r.
    + now rewrite orb_true_r, <- app_assoc.
  - now rewrite orb_false_r.
Qed.

(** The deferred deletion ends every run of [TestGetStatsSummary] that
    created its pod. *)
Lemma TestGetStatsSummary_teardown (w : World) pod rest :
  trace (snd (TestGetStatsSummary f (start w)))
    = EvCreatePod obj3 (Some pod) None :: rest ->
  exists body r, rest = (body ++ teardownEvents pod r)%list.
Proof.
  run_scenario.
  all: inv_events.
  all: one_teardown.
Qed.

Lemma TestOptionalSecrets_teardown (w : World) obj pod err rest :
  trace (snd (TestOptionalSecrets f (start w)))
    = EvCreatePod obj (Some pod) err :: rest ->
  exists body r, rest = (body ++ teardownEvents pod r)%list.
Proof.
  run_scenario.
  all: inv_events.
  all: one_teardown.
Qed.

Lemma TestOptionalConfigMaps_teardown (w : World) obj pod err rest :
  trace (snd (TestOptionalConfigMaps f (start w)))
    = EvCreatePod obj (Some pod) err :: rest ->
  exists body r, rest = (body ++ teardownEvents pod r)%list.
Proof.
  run_scenario.
  all: inv_events.
  all: one_teardown.
Qed.

(** [TestPodLifecycle]: the deferred deletion of the first pod ends every
    run that created it, and the deferred deletion of the second pod comes
    just before on every run that created both. *)
Lemma TestPodLifecycle_teardown_first (w : World) pod0 rest :
  trace (snd (TestPodLifecycle f Sleep (start w)))
    = EvCreatePod obj0 (Some pod0) None :: rest ->
  exists body r0, rest = (body ++ teardownEvents pod0 r0)%list.
Proof.
  run_scenario.
  all: inv_events.
  all: one_teardown.
Qed.

Lemma TestPodLifecycle_teardown_both (w : World) pod0 pod1 rest :
  trace (snd (TestPodLifecycle f Sleep (start w)))
    = EvCreatePod obj0 (Some pod0) None
        :: EvCreatePod obj1 (Some pod1) None :: rest ->
  exists body r1 r0,
    rest = (body ++ teardownEvents pod1 r1 ++ teardownEvents pod0 r0)%list.
Proof.
  run_scenario.
  all: inv_events.
  all: two_teardowns.
Qed.

(** A deleted pod found in the summary fetched after its deletion ends
    [TestPodLifecycle] there, failed; only the deferred deletions follow. *)
Lemma TestPodLifecycle_found_after_graceful
  (w : World) pod0 pod1 before afterGraceful rest :
  trace (snd (TestPodLifecycle f Sleep (start w)))
    = (lifecycleCreated obj0 obj1 pod0 pod1 before
       ++ deletionLog false pod1 afterGraceful ++ rest)%list ->
  found afterGraceful pod1 = true ->
  fst (TestPodLifecycle f Sleep (start w)) = Exited Goexit /\
  failed (snd (TestPodLifecycle f Sleep (start w))) = true /\
  exists r1 r0,
    rest = ([EvFatal (stillFoundMessage pod1)]
            ++ teardownEvents pod1 r1 ++ teardownEvents pod0 r0)%list.
Proof.
  unfold found, lifecycleCreated, deletionLog. run_scenario.
  all: inv_events.
  all: found_against_run.
  all: try discriminate.
  all: split; [reflexivity|]; split; [reflexivity|].
  all: fatal_then_teardowns.
Qed.

Lemma TestPodLifecycle_found_after_immediate
  (w : World) pod0 pod1 before afterGraceful afterImmediate rest :
  trace (snd (TestPodLifecycle f Sleep (start w)))
    = (lifecycleCreated obj0 obj1 pod0 pod1 before
       ++ deletionLog false pod1 afterGraceful
       ++ deletionLog true pod0 afterImmediate ++ rest)%list ->
  found afterImmediate pod0 = true ->
  fst (TestPodLifecycle f Sleep (start w)) = Exited Goexit /\
  failed (snd (TestPodLifecycle f Sleep (start w))) = true /\
  exists r1 r0,
    rest = ([EvFatal (stillFoundMessage pod0)]
            ++ teardownEvents pod1 r1 ++ teardownEvents pod0 r0)%list.
Proof.
  unfold found, lifecycleCreated, deletionLog. run_scenario.
  all: inv_events.
  all: found_against_run.
  all: try discriminate.
  all: split; [reflexivity|]; split; [reflexivity|].
  all: fatal_then_teardowns.
Qed.

(** The other scenarios that wait for a deletion never sleep. *)
Lemma TestOptionalSecrets_no_sleep (w : World) :
  sleeps (trace (snd (TestOptionalSecrets f (start w)))) = false.
Proof. run_scenario. all: reflexivity. Qed.

Lemma TestOptionalConfigMaps_no_sleep (w : World) :
  sleeps (trace (snd (TestOptionalConfigMaps f (start w)))) = false.
Proof. run_scenario. all: reflexivity. Qed.

Lemma TestMandatorySecrets_no_sleep (w : World) :
  sleeps (trace (snd (TestMandatorySecrets f (start w)))) = false.
Proof. run_scenario. all: reflexivity. Qed.

(** [TestGetStatsSummary] and [TestPodLifecycle] check the error of the
    submission: a refused submission ends the scenario at once. *)
Lemma TestGetStatsSummary_refused_submission (w w' : World) pod e :
  framework.CreatePod f obj3 w = ((pod, Some e), w') ->
  TestGetStatsSummary f (start w)
  = (Exited Goexit,
     {| world := w';
        trace := [EvCreatePod obj3 pod (Some e); EvFatal (Error e)];
        failed := true |}).
Proof.
  intros H. unfold_scenario. now rewrite H.
Qed.

Lemma TestPodLifecycle_refused_submission (w w' : World) pod e :
  framework.CreatePod f obj0 w = ((pod, Some e), w') ->
  TestPodLifecycle f Sleep (start w)
  = (Exited Goexit,
     {| world := w';
        trace := [EvCreatePod obj0 pod (Some e); EvFatal (Error e)];
        failed := true |}).
Proof.
  intros H. unfold_scenario. now rewrite H.
Qed.

(** The fixtures set the environment of the first container of the dummy
    pod object. *)
Lemma CreatePodWithEnv_first_container (env : list v1.EnvVar) obj :
  framework.CreatePodWithEnv f env = Some obj ->
  exists c rest,
    v1.Containers (v1.Spec obj) = c :: rest /\ v1.Env c = env.
Proof.
  unfold framework.CreatePodWithEnv, framework.setEnvOfFirstContainer.
  destruct (v1.Containers
              (v1.Spec (framework.CreateDummyPodObjectWithPrefix f
                          "nginxtest" ["foo"]))) as [|c rest];
    [discriminate|].
  intros H. injection H as <-. now eexists _, rest.
Qed.

(** [TestOptionalSecrets], [TestOptionalConfigMaps] and
    [TestMandatorySecrets] end at the observed deletion: on every run,
    nothing but the deferred deletion follows the receive of a nil error,
    the scenario returns, and the one summary it queried is the one it
    queried before the deletion. *)
Lemma TestOptionalSecrets_after_receive (w : World) :
  endsAtObservedDeletion (trace (snd (TestOptionalSecrets f (start w)))) /\
  (summaries (trace (snd (TestOptionalSecrets f (start w)))) <= 1)%nat /\
  (forall ns name,
      In (EvRecv ns name None)
        (trace (snd (TestOptionalSecrets f (start w)))) ->
      fst (TestOptionalSecrets f (start w)) = Returned tt).
Proof. run_scenario. all: after_receive. Qed.

Lemma TestOptionalConfigMaps_after_receive (w : World) :
  endsAtObservedDeletion
    (trace (snd (TestOptionalConfigMaps f (start w)))) /\
  (summaries (trace (snd (TestOptionalConfigMaps f (start w)))) <= 1)%nat /\
  (forall ns name,
      In (EvRecv ns name None)
        (trace (snd (TestOptionalConfigMaps f (start w)))) ->
      fst (TestOptionalConfigMaps f (start w)) = Returned tt).
Proof. run_scenario. all: after_receive. Qed.

Lemma TestMandatorySecrets_after_receive (w : World) :
  endsAtObservedDeletion (trace (snd (TestMandatorySecrets f (start w)))) /\
  (summaries (trace (snd (TestMandatorySecrets f (start w)))) <= 1)%nat /\
  (forall ns name,
      In (EvRecv ns name None)
        (trace (snd (TestMandatorySecrets f (start w)))) ->
      fst (TestMandatorySecrets f (start w)) = Returned tt).
Proof. run_scenario. all: after_receive. Qed.

(** The mandatory scenarios never wait for the pod to be ready, and query
    the stats summary at most once. *)
Lemma TestMandatorySecrets_one_summary (w : World) :
  readinessWaits (trace (snd (TestMandatorySecrets f (start w)))) = 0%nat /\
  (summaries (trace (snd (TestMandatorySecrets f (start w)))) <= 1)%nat.
Proof. run_scenario. all: after_receive. Qed.

Lemma TestMandatoryConfigMaps_one_summary (w : World) :
  readinessWaits (trace (snd (TestMandatoryConfigMaps f (start w))))
    = 0%nat /\
  (summaries (trace (snd (TestMandatoryConfigMaps f (start w)))) <= 1)%nat.
Proof. run_scenario. all: after_receive. Qed.

(** A fixture gives a pod object whenever the dummy pod object has a
    container. *)
Lemma CreatePodWithEnv_defined (env : list v1.EnvVar) :
  v1.Containers
    (v1.Spec (framework.CreateDummyPodObjectWithPrefix f "nginxtest" ["foo"]))
    <> [] ->
  exists obj, framework.CreatePodWithEnv f env = Some obj.
Proof.
  unfold framework.CreatePodWithEnv, framework.setEnvOfFirstContainer.
  destruct (v1.Containers
              (v1.Spec (framework.CreateDummyPodObjectWithPrefix f
                          "nginxtest" ["foo"]))) as [|c rest].
  - intros H. now destruct H.
  - intros _. eexists. reflexivity.
Qed.

(** [TestMandatoryConfigMaps], once the pod is submitted and the summary
    fetched: the one thing left is the search of the pod in that
    summary. *)
Lemma TestMandatoryConfigMaps_run (w w1 w2 : World) obj pod err summary :
  framework.CreatePodWithMandatoryConfigMaps f = Some obj ->
  framework.CreatePod f obj w = ((Some pod, err), w1) ->
  framework.GetStatsSummary f w1 = ((Some summary, None), w2) ->
  TestMandatoryConfigMaps f (start w)
  = if found summary pod
    then (Exited Goexit,
          {| world := w2;
             trace := (mandatoryConfigMapsLog obj pod err summary
                       ++ [EvFatal (mandatoryConfigMapsMessage pod)])%list;
             failed := true |})
    else (Returned tt,
          {| world := w2;
             trace := mandatoryConfigMapsLog obj pod err summary;
             failed := false |}).
Proof.
  intros Hobj Hpod Hstats. unfold found, mandatoryConfigMapsLog.
  unfold_scenario. rewrite Hobj, Hpod. cbn [world]. rewrite Hstats.
  destruct (findPodInPodStats summary pod) as [idx [e|]]; reflexivity.
Qed.

(** The same for [TestMandatorySecrets], which goes on to delete the pod
    when it is not in the summary. *)
Lemma TestMandatorySecrets_run (w w1 w2 : World) obj pod err summary :
  framework.CreatePodWithMandatorySecrets f = Some obj ->
  framework.CreatePod f obj w = ((Some pod, err), w1) ->
  framework.GetStatsSummary f w1 = ((Some summary, None), w2) ->
  if found summary pod
  then TestMandatorySecrets f (start w)
       = (Exited Goexit,
          {| world := w2;
             trace := [ EvCreatePod obj (Some pod) err;
                        EvGetStatsSummary (Some summary) None;
                        EvFatal (mandatorySecretsMessage pod) ];
             failed := true |})
  else exists d rest,
         trace (snd (TestMandatorySecrets f (start w)))
         = EvCreatePod obj (Some pod) err
             :: EvGetStatsSummary (Some summary) None
             :: EvGo (v1.Namespace pod) (v1.Name pod)
             :: EvDeletePod (v1.Namespace pod) (v1.Name pod) d
             :: rest.
Proof.
  intros Hobj Hpod Hstats. unfold found.
  unfold_scenario. rewrite Hobj, Hpod. cbn [world]. rewrite Hstats.
  destruct (findPodInPodStats summary pod) as [idx [e|]]; cbn [snd].
  - destruct (framework.DeletePod f (v1.Namespace pod) (v1.Name pod) w2)
      as [[e'|] w3].
    + eexists _, _. reflexivity.
    + destruct (framework.WaitUntilPodDeleted f (v1.Namespace pod)
                  (v1.Name pod) w3) as [[e'|] w4];
        eexists _, _; reflexivity.
  - reflexivity.
Qed.

End ScenarioFacts.

(** * The deletion wait: what may come first *)

(** The schedules of an accepted deletion are these three. *)
Lemma DeletionWait_schedules (l : list DeletionWait.Step) :
  DeletionWait.schedule false l = true <->
  l = DeletionWait.waitThenDelete \/
  l = DeletionWait.waitAcrossDelete \/
  l = DeletionWait.deleteThenWait.
Proof.
  split.
  - unfold DeletionWait.schedule.
    destruct l as [|s1 l]; [discriminate|].
    destruct s1; try discriminate.
    destruct l as [|s2 l]; [discriminate|].
    destruct s2; try discriminate.
    + destruct l as [|s3 l]; [discriminate|].
      destruct s3; try discriminate.
      destruct l as [|s4 l]; [discriminate|].
      destruct s4; try discriminate.
      destruct l as [|s5 l]; [discriminate|].
      destruct s5; try discriminate.
      destruct l as [|s6 l]; [|destruct s6; discriminate].
      intros _. right. right. reflexivity.
    + destruct l as [|s3 l]; [discriminate|].
      destruct s3; try discriminate.
      * destruct l as [|s4 l]; [discriminate|].
        destruct s4; try discriminate.
        destruct l as [|s5 l]; [discriminate|].
        destruct s5; try discriminate.
        destruct l as [|s6 l]; [|destruct s6; discriminate].
        intros _. right. left. reflexivity.
      * destruct l as [|s4 l]; [discriminate|].
        destruct s4; try discriminate.
        destruct l as [|s5 l]; [discriminate|].
        destruct s5; try discriminate.
        destruct l as [|s6 l]; [|destruct s6; discriminate].
        intros _. left. reflexivity.
  - intros [->|[->| ->]]; reflexivity.
Qed.

(** On a refused deletion [t.Fatal] may come before the goroutine has
    called [WaitUntilPodDeleted]: the goroutine goes on after the test
    function has ended. *)
Lemma DeletionWait_wait_after_fatal :
  DeletionWait.schedule true
    [DeletionWait.GoStmt; DeletionWait.DeleteCall; DeletionWait.FatalCall;
     DeletionWait.WaitCall; DeletionWait.SendOrClose] = true /\
  DeletionWait.before DeletionWait.FatalCall DeletionWait.WaitCall
    [DeletionWait.GoStmt; DeletionWait.DeleteCall; DeletionWait.FatalCall;
     DeletionWait.WaitCall; DeletionWait.SendOrClose] = true.
Proof. split; reflexivity. Qed.

(** In every schedule of a refused deletion the goroutine is started, calls
    [WaitUntilPodDeleted] and reaches its send or its close, whatever the
    scenario does. *)
Lemma DeletionWait_refused_schedules (l : list DeletionWait.Step) :
  DeletionWait.schedule true l = true ->
  DeletionWait.before DeletionWait.GoStmt DeletionWait.WaitCall l = true /\
  DeletionWait.before DeletionWait.WaitCall DeletionWait.SendOrClose l
    = true /\
  DeletionWait.before DeletionWait.DeleteCall DeletionWait.FatalCall l
    = true.
Proof.
  unfold DeletionWait.schedule.
  destruct l as [|s1 l]; [discriminate|].
  destruct s1; try discriminate.
  destruct l as [|s2 l]; [discriminate|].
  destruct s2; try discriminate;
    (destruct l as [|s3 l]; [discriminate|]);
    destruct s3; try discriminate;
    (destruct l as [|s4 l]; [discriminate|]);
    destruct s4; try discriminate;
    (destruct l as [|s5 l]; [discriminate|]);
    destruct s5; try discriminate;
    (destruct l as [|s6 l]; [|destruct s6; discriminate]);
    intros _; repeat split.
Qed.

(** The steps [deleteAndWait] adds to a log are the steps of the scenario
    of the model, followed by the [t.Fatal] of an error received from the
    goroutine. *)
Lemma deleteAndWait_steps {World : Type} (f : framework.Framework World)
  (p : v1.Pod) (s : State World) :
  exists added,
    trace (snd (deleteAndWait f p s)) = (trace s ++ added)%list /\
    DeletionWait.stepsOf added
    = match fst (framework.DeletePod f (v1.Namespace p) (v1.Name p)
                   (world s)) with
      | Some _ => DeletionWait.scenario true
      | None =>
          (DeletionWait.scenario false
           ++ match fst (framework.WaitUntilPodDeleted f
                           (v1.Namespace p) (v1.Name p)
                           (snd (framework.DeletePod f (v1.Namespace p)
                                   (v1.Name p) (world s)))) with
              | Some _ => [DeletionWait.FatalCall]
              | None => []
              end)%list
      end.
Proof.
  unfold deleteAndWait, bind, goWaitUntilPodDeleted, DeletePod,
    recvWaitUntilPodDeleted, fatalOnError, Fatal, ret, log, receive,
    deletionWaiter.
  cbn [world trace failed].
  destruct (framework.DeletePod f (v1.Namespace p) (v1.Name p) (world s))
    as [[e|] w1]; cbn [fst snd trace world].
  - eexists. rewrite <- !app_assoc. split; [reflexivity|]. reflexivity.
  - destruct (framework.WaitUntilPodDeleted f (v1.Namespace p) (v1.Name p) w1)
      as [[e|] w2]; cbn [fst snd trace world].
    + eexists. rewrite <- !app_assoc. split; [reflexivity|]. reflexivity.
    + eexists. rewrite <- !app_assoc. split; [reflexivity|]. reflexivity.
Qed.

(** The steps of a deletion of [TestPodLifecycle], graceful or immediate,
    on a run that passes. *)
Lemma deletionLog_steps immediately pod after :
  DeletionWait.stepsOf (deletionLog immediately pod after)
  = DeletionWait.scenario false.
Proof. destruct immediately; reflexivity. Qed.

(** C1.  The [go] statement comes before the request to delete the pod,
    but it orders only the start of the goroutine: in one of the three
    schedules of a deletion wait the goroutine calls
    [f.WaitUntilPodDeleted] after the scenario has called [f.DeletePod].
    What holds in every schedule is that the [go] statement comes before
    both calls, and the receive after both. *)
Theorem deletion_wait_may_start_after_the_delete_request :
  DeletionWait.schedule false DeletionWait.deleteThenWait = true /\
  DeletionWait.deleteThenWait
  = [DeletionWait.GoStmt; DeletionWait.DeleteCall; DeletionWait.WaitCall;
     DeletionWait.SendOrClose; DeletionWait.Recv] /\
  DeletionWait.before DeletionWait.DeleteCall DeletionWait.WaitCall
    DeletionWait.deleteThenWait = true /\
  DeletionWait.before DeletionWait.WaitCall DeletionWait.DeleteCall
    DeletionWait.deleteThenWait = false /\
  (forall immediately pod after,
      DeletionWait.stepsOf (deletionLog immediately pod after)
      = DeletionWait.scenario false) /\
  (forall l,
      DeletionWait.schedule false l = true ->
      DeletionWait.before DeletionWait.GoStmt DeletionWait.DeleteCall l
        = true /\
      DeletionWait.before DeletionWait.GoStmt DeletionWait.WaitCall l
        = true /\
      DeletionWait.before DeletionWait.DeleteCall DeletionWait.Recv l
        = true /\
      DeletionWait.before DeletionWait.WaitCall DeletionWait.Recv l
        = true).
Proof.
  repeat apply conj; try reflexivity.
  - apply deletionLog_steps.
  - intros l H. apply DeletionWait_schedules in H.
    destruct H as [->|[->| ->]]; repeat split.
Qed.

(** * The claims on the scenarios *)

(** C4, as the code has it.  On every run of [TestPodLifecycle], each
    deletion wait that returns without error is followed at once by a sleep
    of [deleteGracePeriodForProvider] and a fresh query of the stats
    summary; the scenario passes only if each of these summaries lacks the
    pod just deleted, and a deleted pod found in its summary ends the
    scenario there, failed.  [TestOptionalSecrets],
    [TestOptionalConfigMaps] and [TestMandatorySecrets] end at the observed
    deletion: on every run they never sleep, they query the stats summary
    at most once, nothing but the deferred deletion follows the receive of
    a nil error from the deletion wait, and the scenario then returns. *)
Theorem TestPodLifecycle_grace_then_fresh_snapshot
  {World : Type} (f : framework.Framework World)
  (Sleep : Z -> World -> World) (w : World) :
  graceThenSnapshot (trace (snd (TestPodLifecycle f Sleep (start w)))) /\
  (passed (TestPodLifecycle f Sleep (start w)) ->
   exists pod0 pod1 before afterGraceful afterImmediate r1 r0,
     trace (snd (TestPodLifecycle f Sleep (start w))) =
       lifecycleLog
         (framework.CreateDummyPodObjectWithPrefix f "nginx-0-" ["foo"])
         (framework.CreateDummyPodObjectWithPrefix f "nginx-1-" ["bar"])
         pod0 pod1 before afterGraceful afterImmediate r1 r0 /\
     found afterGraceful pod1 = false /\
     found afterImmediate pod0 = false) /\
  (forall pod0 pod1 before afterGraceful rest,
      trace (snd (TestPodLifecycle f Sleep (start w)))
        = (lifecycleCreated
             (framework.CreateDummyPodObjectWithPrefix f "nginx-0-" ["foo"])
             (framework.CreateDummyPodObjectWithPrefix f "nginx-1-" ["bar"])
             pod0 pod1 before
           ++ deletionLog false pod1 afterGraceful ++ rest)%list ->
      found afterGraceful pod1 = true ->
      fst (TestPodLifecycle f Sleep (start w)) = Exited Goexit /\
      failed (snd (TestPodLifecycle f Sleep (start w))) = true /\
      exists r1 r0,
        rest = ([EvFatal (stillFoundMessage pod1)]
                ++ teardownEvents pod1 r1 ++ teardownEvents pod0 r0)%list) /\
  (forall pod0 pod1 before afterGraceful afterImmediate rest,
      trace (snd (TestPodLifecycle f Sleep (start w)))
        = (lifecycleCreated
             (framework.CreateDummyPodObjectWithPrefix f "nginx-0-" ["foo"])
             (framework.CreateDummyPodObjectWithPrefix f "nginx-1-" ["bar"])
             pod0 pod1 before
           ++ deletionLog false pod1 afterGraceful
           ++ deletionLog true pod0 afterImmediate ++ rest)%list ->
      found afterImmediate pod0 = true ->
      fst (TestPodLifecycle f Sleep (start w)) = Exited Goexit /\
      failed (snd (TestPodLifecycle f Sleep (start w))) = true /\
      exists r1 r0,
        rest = ([EvFatal (stillFoundMessage pod0)]
                ++ teardownEvents pod1 r1 ++ teardownEvents pod0 r0)%list) /\
  sleeps (trace (snd (TestOptionalSecrets f (start w)))) = false /\
  sleeps (trace (snd (TestOptionalConfigMaps f (start w)))) = false /\
  sleeps (trace (snd (TestMandatorySecrets f (start w)))) = false /\
  (endsAtObservedDeletion (trace (snd (TestOptionalSecrets f (start w)))) /\
   (summaries (trace (snd (TestOptionalSecrets f (start w)))) <= 1)%nat /\
   (forall ns name,
       In (EvRecv ns name None)
         (trace (snd (TestOptionalSecrets f (start w)))) ->
       fst (TestOptionalSecrets f (start w)) = Returned tt)) /\
  (endsAtObservedDeletion
     (trace (snd (TestOptionalConfigMaps f (start w)))) /\
   (summaries (trace (snd (TestOptionalConfigMaps f (start w)))) <= 1)%nat /\
   (forall ns name,
       In (EvRecv ns name None)
         (trace (snd (TestOptionalConfigMaps f (start w)))) ->
       fst (TestOptionalConfigMaps f (start w)) = Returned tt)) /\
  (endsAtObservedDeletion (trace (snd (TestMandatorySecrets f (start w)))) /\
   (summaries (trace (snd (TestMandatorySecrets f (start w)))) <= 1)%nat /\
   (forall ns name,
       In (EvRecv ns name None)
         (trace (snd (TestMandatorySecrets f (start w)))) ->
       fst (TestMandatorySecrets f (start w)) = Returned tt)).
Proof.
  split; [apply TestPodLifecycle_grace|].
  split.
  { intros H.
    destruct (TestPodLifecycle_passed f Sleep w H)
      as (pod0 & pod1 & before & afterGraceful & afterImmediate & r1 & r0
          & Hlog & _ & Habsent & _).
    now exists pod0, pod1, before, afterGraceful, afterImmediate, r1, r0. }
  split; [apply TestPodLifecycle_found_after_graceful|].
  split; [apply TestPodLifecycle_found_after_immediate|].
  split; [apply TestOptionalSecrets_no_sleep|].
  split; [apply TestOptionalConfigMaps_no_sleep|].
  split; [apply TestMandatorySecrets_no_sleep|].
  split; [apply TestOptionalSecrets_after_receive|].
  split; [apply TestOptionalConfigMaps_after_receive|].
  apply TestMandatorySecrets_after_receive.
Qed.

Lemma TestPodLifecycle_grace_then_fresh_snapshot_witness :
  exists pod0 pod1 before afterGraceful afterImmediate r1 r0,
    trace (snd (TestPodLifecycle Scripted.f Scripted.Sleep
                  (start (Examples.lifecycleScript
                            (Scripted.summary
                               [Scripted.statsOf Examples.web0 1])
                            (Scripted.summary []))))) =
      lifecycleLog
        (Scripted.dummy "nginx-0-" ["foo"])
        (Scripted.dummy "nginx-1-" ["bar"])
        pod0 pod1 before afterGraceful afterImmediate r1 r0 /\
    found afterGraceful pod1 = false /\
    found afterImmediate pod0 = false.
Proof.
  apply (proj1 (proj2 (TestPodLifecycle_grace_then_fresh_snapshot
                  Scripted.f Scripted.Sleep
                  (Examples.lifecycleScript
                     (Scripted.summary [Scripted.statsOf Examples.web0 1])
                     (Scripted.summary []))))).
  split; reflexivity.
Defined.

(** C4, as the claim has it, fails: [TestOptionalSecrets] observes the
    deletion of its pod and ends there; nothing but the deferred deletion
    follows the receive. *)
Lemma TestOptionalSecrets_ends_at_the_observed_deletion :
  Scripted.run (TestOptionalSecrets Scripted.f)
    (Examples.optionalSecretsScript 1)
  = (Returned tt,
     {| world := [];
        trace :=
          [ EvCreatePod Examples.optionalSecretsObject
              (Some Examples.optionalSecretsPod) None;
            EvWaitUntilPodReady "default" "nginxtests" None;
            EvGetStatsSummary
              (Some (Scripted.summary
                       [Scripted.statsOf Examples.optionalSecretsPod 1]))
              None;
            EvGo "default" "nginxtests";
            EvDeletePod "default" "nginxtests" None;
            EvRecv "default" "nginxtests" None;
            EvDeletePod "default" "nginxtests" (Some Scripted.notFound) ];
        failed := false |}) /\
  ~ graceThenSnapshot
      (trace (snd (Scripted.run (TestOptionalSecrets Scripted.f)
                     (Examples.optionalSecretsScript 1)))).
Proof.
  split; [reflexivity|].
  cbn. intros [[] _].
Qed.

(** C5, as the code has it.  [TestPodLifecycle] passes only if both pods
    are in the summary fetched before the deletions, the gracefully deleted
    pod is missing from the summary fetched after its deletion, and the
    immediately deleted pod is missing from the summary fetched after its
    own. *)
Theorem TestPodLifecycle_presence_then_absence
  {World : Type} (f : framework.Framework World)
  (Sleep : Z -> World -> World) (w : World) :
  passed (TestPodLifecycle f Sleep (start w)) ->
  exists pod0 pod1 before afterGraceful afterImmediate r1 r0,
    trace (snd (TestPodLifecycle f Sleep (start w))) =
      lifecycleLog
        (framework.CreateDummyPodObjectWithPrefix f "nginx-0-" ["foo"])
        (framework.CreateDummyPodObjectWithPrefix f "nginx-1-" ["bar"])
        pod0 pod1 before afterGraceful afterImmediate r1 r0 /\
    (found before pod0 = true /\ found before pod1 = true) /\
    found afterGraceful pod1 = false /\
    found afterImmediate pod0 = false.
Proof.
  intros H.
  destruct (TestPodLifecycle_passed f Sleep w H)
    as (pod0 & pod1 & before & afterGraceful & afterImmediate & r1 & r0
        & Hlog & Hpresent & Habsent & _).
  now exists pod0, pod1, before, afterGraceful, afterImmediate, r1, r0.
Qed.

Lemma TestPodLifecycle_presence_then_absence_witness :
  exists pod0 pod1 before afterGraceful afterImmediate r1 r0,
    trace (snd (TestPodLifecycle Scripted.f Scripted.Sleep
                  (start (Examples.lifecycleScript
                            (Scripted.summary
                               [Scripted.statsOf Examples.web0 1])
                            (Scripted.summary []))))) =
      lifecycleLog
        (Scripted.dummy "nginx-0-" ["foo"])
        (Scripted.dummy "nginx-1-" ["bar"])
        pod0 pod1 before afterGraceful afterImmediate r1 r0 /\
    (found before pod0 = true /\ found before pod1 = true) /\
    found afterGraceful pod1 = false /\
    found afterImmediate pod0 = false.
Proof.
  apply (TestPodLifecycle_presence_then_absence Scripted.f Scripted.Sleep
           (Examples.lifecycleScript
              (Scripted.summary [Scripted.statsOf Examples.web0 1])
              (Scripted.summary []))).
  split; reflexivity.
Defined.

(** C5, as the claim has it, fails: the scenario passes on a run whose
    summary after the graceful deletion holds no pod at all, the sibling
    still to be deleted included. *)
Lemma TestPodLifecycle_sibling_not_asserted :
  Scripted.run (TestPodLifecycle Scripted.f Scripted.Sleep)
    (Examples.lifecycleScript (Scripted.summary []) (Scripted.summary []))
  = (Returned tt,
     {| world := [];
        trace :=
          lifecycleLog
            (Scripted.dummy "nginx-0-" ["foo"])
            (Scripted.dummy "nginx-1-" ["bar"])
            Examples.web0 Examples.web1
            (Scripted.summary
               [Scripted.statsOf Examples.web0 1;
                Scripted.statsOf Examples.web1 1])
            (Scripted.summary []) (Scripted.summary [])
            (Some Scripted.notFound) (Some Scripted.notFound);
        failed := false |}) /\
  found (Scripted.summary []) Examples.web0 = false.
Proof.
  split; reflexivity.
Qed.

(** C6, as the code has it.  The mandatory fixtures give a pod object
    whenever the dummy pod object has a container, and put a reference
    that is not optional in the environment of its first container.
    [TestMandatorySecrets] and [TestMandatoryConfigMaps] submit it and
    assert one thing of it: that the pod is missing from the one summary
    they fetch right after the submission.  A pod found there ends the
    scenario at once, failed; a pod missing from it lets the scenario go
    on, [TestMandatoryConfigMaps] to its end and [TestMandatorySecrets] to
    the deletion of the pod.  Neither scenario waits for the pod to be
    ready, and neither queries the stats summary a second time. *)
Theorem mandatory_reference_scenarios_assert_absence
  {World : Type} (f : framework.Framework World) (w : World) :
  (forall obj,
      framework.CreatePodWithMandatorySecrets f = Some obj ->
      exists c rest,
        v1.Containers (v1.Spec obj) = c :: rest /\
        hasMandatoryReference (v1.Env c) = true) /\
  (forall obj,
      framework.CreatePodWithMandatoryConfigMaps f = Some obj ->
      exists c rest,
        v1.Containers (v1.Spec obj) = c :: rest /\
        hasMandatoryReference (v1.Env c) = true) /\
  (passed (TestMandatorySecrets f (start w)) ->
   exists obj pod err summary,
     framework.CreatePodWithMandatorySecrets f = Some obj /\
     trace (snd (TestMandatorySecrets f (start w)))
       = mandatorySecretsLog obj pod err summary /\
     found summary pod = false) /\
  (passed (TestMandatoryConfigMaps f (start w)) ->
   exists obj pod err summary,
     framework.CreatePodWithMandatoryConfigMaps f = Some obj /\
     trace (snd (TestMandatoryConfigMaps f (start w)))
       = mandatoryConfigMapsLog obj pod err summary /\
     found summary pod = false) /\
  (forall obj pod err summary rest,
      trace (snd (TestMandatorySecrets f (start w)))
        = EvCreatePod obj (Some pod) err
            :: EvGetStatsSummary (Some summary) None :: rest ->
      found summary pod = true ->
      fst (TestMandatorySecrets f (start w)) = Exited Goexit /\
      failed (snd (TestMandatorySecrets f (start w))) = true /\
      rest = [EvFatal (mandatorySecretsMessage pod)]) /\
  (forall obj pod err summary rest,
      trace (snd (TestMandatoryConfigMaps f (start w)))
        = EvCreatePod obj (Some pod) err
            :: EvGetStatsSummary (Some summary) None :: rest ->
      found summary pod = true ->
      fst (TestMandatoryConfigMaps f (start w)) = Exited Goexit /\
      failed (snd (TestMandatoryConfigMaps f (start w))) = true /\
      rest = [EvFatal (mandatoryConfigMapsMessage pod)]) /\
  (v1.Containers
     (v1.Spec (framework.CreateDummyPodObjectWithPrefix f "nginxtest"
                 ["foo"])) <> [] ->
   (exists obj, framework.CreatePodWithMandatorySecrets f = Some obj) /\
   (exists obj, framework.CreatePodWithMandatoryConfigMaps f = Some obj)) /\
  (forall obj pod err summary w1 w2,
      framework.CreatePodWithMandatorySecrets f = Some obj ->
      framework.CreatePod f obj w = ((Some pod, err), w1) ->
      framework.GetStatsSummary f w1 = ((Some summary, None), w2) ->
      if found summary pod
      then TestMandatorySecrets f (start w)
           = (Exited Goexit,
              {| world := w2;
                 trace := [ EvCreatePod obj (Some pod) err;
                            EvGetStatsSummary (Some summary) None;
                            EvFatal (mandatorySecretsMessage pod) ];
                 failed := true |})
      else exists d rest,
             trace (snd (TestMandatorySecrets f (start w)))
             = EvCreatePod obj (Some pod) err
                 :: EvGetStatsSummary (Some summary) None
                 :: EvGo (v1.Namespace pod) (v1.Name pod)
                 :: EvDeletePod (v1.Namespace pod) (v1.Name pod) d
                 :: rest) /\
  (forall obj pod err summary w1 w2,
      framework.CreatePodWithMandatoryConfigMaps f = Some obj ->
      framework.CreatePod f obj w = ((Some pod, err), w1) ->
      framework.GetStatsSummary f w1 = ((Some summary, None), w2) ->
      TestMandatoryConfigMaps f (start w)
      = if found summary pod
        then (Exited Goexit,
              {| world := w2;
                 trace := (mandatoryConfigMapsLog obj pod err summary
                           ++ [EvFatal (mandatoryConfigMapsMessage pod)])%list;
                 failed := true |})
        else (Returned tt,
              {| world := w2;
                 trace := mandatoryConfigMapsLog obj pod err summary;
                 failed := false |})) /\
  (readinessWaits (trace (snd (TestMandatorySecrets f (start w)))) = 0%nat /\
   (summaries (trace (snd (TestMandatorySecrets f (start w)))) <= 1)%nat) /\
  (readinessWaits (trace (snd (TestMandatoryConfigMaps f (start w))))
     = 0%nat /\
   (summaries (trace (snd (TestMandatoryConfigMaps f (start w)))) <= 1)%nat).
Proof.
  split.
  { intros obj H.
    destruct (CreatePodWithEnv_first_container f _ obj H)
      as (c & rest & Hc & Henv).
    exists c, rest. now rewrite Henv. }
  split.
  { intros obj H.
    destruct (CreatePodWithEnv_first_container f _ obj H)
      as (c & rest & Hc & Henv).
    exists c, rest. now rewrite Henv. }
  split; [apply TestMandatorySecrets_passed|].
  split; [apply TestMandatoryConfigMaps_passed|].
  split; [apply TestMandatorySecrets_found|].
  split; [apply TestMandatoryConfigMaps_found|].
  split.
  { intros H. split; apply (CreatePodWithEnv_defined f _ H). }
  split.
  { intros obj pod err summary w1 w2.
    apply TestMandatorySecrets_run. }
  split.
  { intros obj pod err summary w1 w2.
    apply TestMandatoryConfigMaps_run. }
  split; [apply TestMandatorySecrets_one_summary|].
  apply TestMandatoryConfigMaps_one_summary.
Qed.

Lemma mandatory_reference_scenarios_assert_absence_witness :
  exists obj pod err summary,
    framework.CreatePodWithMandatorySecrets Scripted.f = Some obj /\
    trace (snd (TestMandatorySecrets Scripted.f
                  (start Examples.mandatorySecretsScript)))
      = mandatorySecretsLog obj pod err summary /\
    found summary pod = false.
Proof.
  apply (proj1 (proj2 (proj2
           (mandatory_reference_scenarios_assert_absence
              Scripted.f Examples.mandatorySecretsScript)))).
  split; reflexivity.
Defined.

(** C6, as the claim has it, fails: the two scenarios pass against a
    provider that runs the pod all the same.  In the world each of them
    leaves, the wait for the pod to be ready returns without error and the
    next stats summary holds the pod. *)
Lemma mandatory_pod_ready_and_reported_after_a_passing_run :
  (passed (Scripted.run (TestMandatorySecrets Scripted.f)
             (Examples.mandatorySecretsScript
              ++ MoreExamples.readyAndReported
                   Examples.mandatorySecretsPod)%list) /\
   world (snd (Scripted.run (TestMandatorySecrets Scripted.f)
                 (Examples.mandatorySecretsScript
                  ++ MoreExamples.readyAndReported
                       Examples.mandatorySecretsPod)%list))
   = MoreExamples.readyAndReported Examples.mandatorySecretsPod) /\
  (passed (Scripted.run (TestMandatoryConfigMaps Scripted.f)
             (Examples.mandatoryConfigMapsScript
              ++ MoreExamples.readyAndReported
                   Examples.mandatoryConfigMapsPod)%list) /\
   world (snd (Scripted.run (TestMandatoryConfigMaps Scripted.f)
                 (Examples.mandatoryConfigMapsScript
                  ++ MoreExamples.readyAndReported
                       Examples.mandatoryConfigMapsPod)%list))
   = MoreExamples.readyAndReported Examples.mandatoryConfigMapsPod) /\
  (exists w summary w',
      framework.WaitUntilPodReady Scripted.f
        (v1.Namespace Examples.mandatorySecretsPod)
        (v1.Name Examples.mandatorySecretsPod)
        (MoreExamples.readyAndReported Examples.mandatorySecretsPod)
      = (None, w) /\
      framework.GetStatsSummary Scripted.f w = ((Some summary, None), w') /\
      found summary Examples.mandatorySecretsPod = true) /\
  (exists w summary w',
      framework.WaitUntilPodReady Scripted.f
        (v1.Namespace Examples.mandatoryConfigMapsPod)
        (v1.Name Examples.mandatoryConfigMapsPod)
        (MoreExamples.readyAndReported Examples.mandatoryConfigMapsPod)
      = (None, w) /\
      framework.GetStatsSummary Scripted.f w = ((Some summary, None), w') /\
      found summary Examples.mandatoryConfigMapsPod = true).
Proof.
  split; [split; [split|]; reflexivity|].
  split; [split; [split|]; reflexivity|].
  split; eexists _, _, _; repeat split.
Qed.

(** C7, as the code has it.  The optional fixtures put references in the
    environment of the first container, all of them optional;
    [TestOptionalSecrets] and [TestOptionalConfigMaps] pass only if the
    wait for the pod to be ready returned without error and the pod is in
    the summary they fetch.  The number of container records is compared
    with the number of containers of the pod by [TestGetStatsSummary]
    alone. *)
Theorem optional_reference_scenarios_assert_ready_and_present
  {World : Type} (f : framework.Framework World) (w : World) :
  (forall obj,
      framework.CreatePodWithOptionalSecrets f = Some obj ->
      exists c rest,
        v1.Containers (v1.Spec obj) = c :: rest /\
        hasReference (v1.Env c) = true /\
        onlyOptionalReferences (v1.Env c) = true) /\
  (forall obj,
      framework.CreatePodWithOptionalConfigMaps f = Some obj ->
      exists c rest,
        v1.Containers (v1.Spec obj) = c :: rest /\
        hasReference (v1.Env c) = true /\
        onlyOptionalReferences (v1.Env c) = true) /\
  (passed (TestOptionalSecrets f (start w)) ->
   exists obj pod err summary r,
     framework.CreatePodWithOptionalSecrets f = Some obj /\
     trace (snd (TestOptionalSecrets f (start w)))
       = optionalLog obj pod err summary r /\
     found summary pod = true) /\
  (passed (TestOptionalConfigMaps f (start w)) ->
   exists obj pod err summary r,
     framework.CreatePodWithOptionalConfigMaps f = Some obj /\
     trace (snd (TestOptionalConfigMaps f (start w)))
       = optionalLog obj pod err summary r /\
     found summary pod = true) /\
  (passed (TestGetStatsSummary f (start w)) ->
   exists pod summary idx record r,
     trace (snd (TestGetStatsSummary f (start w)))
       = statsLog
           (framework.CreateDummyPodObjectWithPrefix f "nginx-0-"
              ["foo"; "bar"; "baz"]) pod summary r /\
     findPodInPodStats summary pod = (idx, None) /\
     nth_error (v1alpha1.Pods summary) (Z.to_nat idx) = Some record /\
     len (v1alpha1.Containers record)
       = len (v1.Containers (v1.Spec pod))).
Proof.
  repeat apply conj.
  - intros obj H.
    destruct (CreatePodWithEnv_first_container f _ obj H)
      as (c & rest & Hc & Henv).
    exists c, rest. now rewrite Henv.
  - intros obj H.
    destruct (CreatePodWithEnv_first_container f _ obj H)
      as (c & rest & Hc & Henv).
    exists c, rest. now rewrite Henv.
  - intros H.
    destruct (TestOptionalSecrets_passed f w H)
      as (obj & pod & err & summary & r & Hobj & Hlog & Hfound & _).
    now exists obj, pod, err, summary, r.
  - intros H.
    destruct (TestOptionalConfigMaps_passed f w H)
      as (obj & pod & err & summary & r & Hobj & Hlog & Hfound & _).
    now exists obj, pod, err, summary, r.
  - intros H.
    destruct (TestGetStatsSummary_passed f w H)
      as (pod & summary & idx & record & r & Hlog & _ & Hfind & Hnth
          & Hlen & _).
    now exists pod, summary, idx, record, r.
Qed.

Lemma optional_reference_scenarios_assert_ready_and_present_witness :
  exists obj pod err summary r,
    framework.CreatePodWithOptionalSecrets Scripted.f = Some obj /\
    trace (snd (TestOptionalSecrets Scripted.f
                  (start (Examples.optionalSecretsScript 1))))
      = optionalLog obj pod err summary r /\
    found summary pod = true.
Proof.
  apply (proj1 (proj2 (proj2
           (optional_reference_scenarios_assert_ready_and_present
              Scripted.f (Examples.optionalSecretsScript 1))))).
  split; reflexivity.
Defined.

(** C7, as the claim has it, fails: [TestOptionalSecrets] and
    [TestOptionalConfigMaps] pass on a summary that has no container
    record for a pod of one container. *)
Lemma TestOptionalSecrets_container_count_not_asserted :
  (Scripted.run (TestOptionalSecrets Scripted.f)
     (Examples.optionalSecretsScript 0)
   = (Returned tt,
      {| world := [];
         trace :=
           optionalLog Examples.optionalSecretsObject
             Examples.optionalSecretsPod None
             (Scripted.summary
                [Scripted.statsOf Examples.optionalSecretsPod 0])
             (Some Scripted.notFound);
         failed := false |}) /\
   len (v1alpha1.Containers
          (Scripted.statsOf Examples.optionalSecretsPod 0)) = 0 /\
   len (v1.Containers (v1.Spec Examples.optionalSecretsPod)) = 1) /\
  (Scripted.run (TestOptionalConfigMaps Scripted.f)
     (Examples.optionalConfigMapsScript 0)
   = (Returned tt,
      {| world := [];
         trace :=
           optionalLog Examples.optionalConfigMapsObject
             Examples.optionalConfigMapsPod None
             (Scripted.summary
                [Scripted.statsOf Examples.optionalConfigMapsPod 0])
             (Some Scripted.notFound);
         failed := false |}) /\
   len (v1alpha1.Containers
          (Scripted.statsOf Examples.optionalConfigMapsPod 0)) = 0 /\
   len (v1.Containers (v1.Spec Examples.optionalConfigMapsPod)) = 1).
Proof.
  repeat split.
Qed.

(** C8 fails on the code: [TestMandatorySecrets] drops the error of the
    submission.  When the submission is refused, the scenario still queries
    the stats summary, starts the deletion wait and asks for the deletion;
    and when the API client hands back a nil pod, it panics after the
    query. *)
Theorem TestMandatorySecrets_goes_on_after_refused_submission :
  Scripted.run (TestMandatorySecrets Scripted.f)
    Examples.refusedSubmissionScript
  = (Exited Goexit,
     {| world := [];
        trace :=
          [ EvCreatePod Examples.mandatorySecretsObject
              (Some Examples.zeroPod) (Some Scripted.refused);
            EvGetStatsSummary (Some (Scripted.summary [])) None;
            EvGo EmptyString EmptyString;
            EvDeletePod EmptyString EmptyString (Some Scripted.refused);
            EvFatal "connection refused" ];
        failed := true |}) /\
  Scripted.run (TestMandatorySecrets Scripted.f)
    Examples.refusedSubmissionNilScript
  = (Exited Panicked,
     {| world := [];
        trace :=
          [ EvCreatePod Examples.mandatorySecretsObject None
              (Some Scripted.refused);
            EvGetStatsSummary (Some (Scripted.summary [])) None ];
        failed := false |}).
Proof.
  split; reflexivity.
Qed.

(** C9, as the code has it.  The deferred closure calls [DeletePod] on
    the pod, lets a nil or not-found answer pass, reports any other error
    through [t.Error], which marks the scenario failed, and returns; and it
    ends every run of [TestGetStatsSummary], [TestOptionalSecrets],
    [TestOptionalConfigMaps] and [TestPodLifecycle] that got a pod from the
    submission, the pod created last torn down first. *)
Theorem deferred_deletion_ends_the_run
  {World : Type} (f : framework.Framework World)
  (Sleep : Z -> World -> World) (w : World) :
  (forall p s,
      deferredDeletePod f (Some p) s
      = (Returned tt,
         {| world :=
              snd (framework.DeletePod f (v1.Namespace p) (v1.Name p)
                     (world s));
            trace :=
              (trace s ++ teardownEvents p
                 (fst (framework.DeletePod f (v1.Namespace p) (v1.Name p)
                         (world s))))%list;
            failed :=
              failed s
              || negb (tolerated
                         (fst (framework.DeletePod f (v1.Namespace p)
                                 (v1.Name p) (world s)))) |})) /\
  (forall pod rest,
      trace (snd (TestGetStatsSummary f (start w)))
        = EvCreatePod
            (framework.CreateDummyPodObjectWithPrefix f "nginx-0-"
               ["foo"; "bar"; "baz"]) (Some pod) None :: rest ->
      exists body r, rest = (body ++ teardownEvents pod r)%list) /\
  (forall obj pod err rest,
      trace (snd (TestOptionalSecrets f (start w)))
        = EvCreatePod obj (Some pod) err :: rest ->
      exists body r, rest = (body ++ teardownEvents pod r)%list) /\
  (forall obj pod err rest,
      trace (snd (TestOptionalConfigMaps f (start w)))
        = EvCreatePod obj (Some pod) err :: rest ->
      exists body r, rest = (body ++ teardownEvents pod r)%list) /\
  (forall pod0 rest,
      trace (snd (TestPodLifecycle f Sleep (start w)))
        = EvCreatePod
            (framework.CreateDummyPodObjectWithPrefix f "nginx-0-" ["foo"])
            (Some pod0) None :: rest ->
      exists body r0, rest = (body ++ teardownEvents pod0 r0)%list) /\
  (forall pod0 pod1 rest,
      trace (snd (TestPodLifecycle f Sleep (start w)))
        = EvCreatePod
            (framework.CreateDummyPodObjectWithPrefix f "nginx-0-" ["foo"])
            (Some pod0) None
          :: EvCreatePod
               (framework.CreateDummyPodObjectWithPrefix f "nginx-1-" ["bar"])
               (Some pod1) None
          :: rest ->
      exists body r1 r0,
        rest = (body ++ teardownEvents pod1 r1
                     ++ teardownEvents pod0 r0)%list).
Proof.
  repeat apply conj.
  - apply deferredDeletePod_run.
  - apply TestGetStatsSummary_teardown.
  - apply TestOptionalSecrets_teardown.
  - apply TestOptionalConfigMaps_teardown.
  - apply TestPodLifecycle_teardown_first.
  - apply TestPodLifecycle_teardown_both.
Qed.

Lemma deferred_deletion_ends_the_run_witness :
  exists body r,
    [ EvWaitUntilPodReady "default" "nginx-0-z" None;
      EvGetStatsSummary
        (Some (Scripted.summary [Scripted.statsOf Examples.web3 3])) None;
      EvDeletePod "default" "nginx-0-z" (Some Scripted.refused);
      EvError "connection refused" ]
    = (body ++ teardownEvents Examples.web3 r)%list.
Proof.
  apply (proj1 (proj2
           (deferred_deletion_ends_the_run Scripted.f Scripted.Sleep
              (Examples.statsScript (Some Scripted.refused))))).
  reflexivity.
Defined.

(** C9, as the claim has it, fails twice: [TestMandatoryConfigMaps]
    defers no deletion, its run ends with the query of the stats summary;
    and an error of the deferred deletion of [TestGetStatsSummary] that is
    not a not-found error leaves the scenario failed. *)
Lemma teardown_missing_or_marks_failure :
  Scripted.run (TestMandatoryConfigMaps Scripted.f)
    Examples.mandatoryConfigMapsScript
  = (Returned tt,
     {| world := [];
        trace :=
          [ EvCreatePod Examples.mandatoryConfigMapsObject
              (Some Examples.mandatoryConfigMapsPod) None;
            EvGetStatsSummary (Some (Scripted.summary [])) None ];
        failed := false |}) /\
  Scripted.run (TestGetStatsSummary Scripted.f)
    (Examples.statsScript (Some Scripted.refused))
  = (Returned tt,
     {| world := [];
        trace :=
          [ EvCreatePod (Scripted.dummy "nginx-0-" ["foo"; "bar"; "baz"])
              (Some Examples.web3) None;
            EvWaitUntilPodReady "default" "nginx-0-z" None;
            EvGetStatsSummary
              (Some (Scripted.summary [Scripted.statsOf Examples.web3 3]))
              None;
            EvDeletePod "default" "nginx-0-z" (Some Scripted.refused);
            EvError "connection refused" ];
        failed := true |}).
Proof.
  split; reflexivity.
Qed.

(** * More on the scenarios: every run *)

Ltac shape_of_run :=
  cbn [errorsAreFatal refusalsAreFatal goThenDelete recvAfterDelete
       onlyTeardownAfterFatal deletionOf deletionAcceptedOf hd_error
       forallb teardownEvent andb];
  repeat split.

Section EveryRun.

Context {World : Type}.
Variable f : framework.Framework World.
Variable Sleep : Z -> World -> World.

Lemma TestGetStatsSummary_shape (w : World) :
  wellShaped (trace (snd (TestGetStatsSummary f (start w)))).
Proof. unfold wellShaped. run_scenario. all: shape_of_run. Qed.

Lemma TestPodLifecycle_shape (w : World) :
  wellShaped (trace (snd (TestPodLifecycle f Sleep (start w)))).
Proof. unfold wellShaped. run_scenario. all: shape_of_run. Qed.

Lemma TestOptionalSecrets_shape (w : World) :
  wellShaped (trace (snd (TestOptionalSecrets f (start w)))).
Proof. unfold wellShaped. run_scenario. all: shape_of_run. Qed.

Lemma TestMandatorySecrets_shape (w : World) :
  wellShaped (trace (snd (TestMandatorySecrets f (start w)))).
Proof. unfold wellShaped. run_scenario. all: shape_of_run. Qed.

Lemma TestOptionalConfigMaps_shape (w : World) :
  wellShaped (trace (snd (TestOptionalConfigMaps f (start w)))).
Proof. unfold wellShaped. run_scenario. all: shape_of_run. Qed.

Lemma TestMandatoryConfigMaps_shape (w : World) :
  wellShaped (trace (snd (TestMandatoryConfigMaps f (start w)))).
Proof. unfold wellShaped. run_scenario. all: shape_of_run. Qed.

Local Abbreviation obj0 :=
  (framework.CreateDummyPodObjectWithPrefix f "nginx-0-" ["foo"]).
Local Abbreviation obj3 :=
  (framework.CreateDummyPodObjectWithPrefix f "nginx-0-"
     ["foo"; "bar"; "baz"]).

Lemma TestGetStatsSummary_refusals (w : World) :
  refusalsAreFatal (trace (snd (TestGetStatsSummary f (start w)))).
Proof. run_scenario. all: shape_of_run. Qed.

Lemma TestPodLifecycle_refusals (w : World) :
  refusalsAreFatal (trace (snd (TestPodLifecycle f Sleep (start w)))).
Proof. run_scenario. all: shape_of_run. Qed.

(** The index [findPodInPodStats] returns with a nil error is an index of
    the records. *)
Lemma findPodInPodStats_index summary pod idx :
  findPodInPodStats summary pod = (idx, None) ->
  0 <= idx /\
  exists record,
    nth_error (v1alpha1.Pods summary) (Z.to_nat idx) = Some record.
Proof.
  intros H.
  destruct (findPodInPodStats_cases summary pod) as [Hc|[_ Hc]].
  - destruct Hc as (pre & p & suf & Hpods & _ & _ & Hfind).
    rewrite Hfind in H. injection H as <-. split.
    + unfold len. lia.
    + exists p. rewrite Hpods. apply nth_error_len.
  - rewrite Hc in H. discriminate.
Qed.

Ltac index_in_range :=
  match goal with
  | H : findPodInPodStats ?s ?p = (?z, None) |- _ =>
      destruct (findPodInPodStats_index s p z H) as (? & ? & ?)
  end;
  first [ match goal with
          | H : (_ <? 0) = true |- _ => apply Z.ltb_lt in H; lia
          end
        | congruence ].

Ltac nil_somewhere :=
  cbn [existsb nilHandedBack orb];
  repeat match goal with
    | |- context [match ?x with _ => _ end] => destruct x
    end;
  reflexivity.

Ltac nil_in_run :=
  first [ discriminate
        | nil_somewhere
        | left; nil_somewhere
        | right; reflexivity
        | index_in_range ].

Lemma TestGetStatsSummary_panic (w : World) :
  fst (TestGetStatsSummary f (start w)) = Exited Panicked ->
  existsb nilHandedBack (trace (snd (TestGetStatsSummary f (start w))))
    = true.
Proof. run_scenario. all: nil_in_run. Qed.

Lemma TestPodLifecycle_panic (w : World) :
  fst (TestPodLifecycle f Sleep (start w)) = Exited Panicked ->
  existsb nilHandedBack (trace (snd (TestPodLifecycle f Sleep (start w))))
    = true.
Proof. run_scenario. all: nil_in_run. Qed.

Lemma TestOptionalSecrets_panic (w : World) :
  fst (TestOptionalSecrets f (start w)) = Exited Panicked ->
  existsb nilHandedBack (trace (snd (TestOptionalSecrets f (start w))))
    = true \/
  framework.CreatePodWithOptionalSecrets f = None.
Proof. run_scenario. all: nil_in_run. Qed.

Lemma TestOptionalConfigMaps_panic (w : World) :
  fst (TestOptionalConfigMaps f (start w)) = Exited Panicked ->
  existsb nilHandedBack (trace (snd (TestOptionalConfigMaps f (start w))))
    = true \/
  framework.CreatePodWithOptionalConfigMaps f = None.
Proof. run_scenario. all: nil_in_run. Qed.

Lemma TestMandatorySecrets_panic (w : World) :
  fst (TestMandatorySecrets f (start w)) = Exited Panicked ->
  existsb nilHandedBack (trace (snd (TestMandatorySecrets f (start w))))
    = true \/
  framework.CreatePodWithMandatorySecrets f = None.
Proof. run_scenario. all: nil_in_run. Qed.

Lemma TestMandatoryConfigMaps_panic (w : World) :
  fst (TestMandatoryConfigMaps f (start w)) = Exited Panicked ->
  existsb nilHandedBack (trace (snd (TestMandatoryConfigMaps f (start w))))
    = true \/
  framework.CreatePodWithMandatoryConfigMaps f = None.
Proof. run_scenario. all: nil_in_run. Qed.

Lemma TestMandatoryConfigMaps_deletions (w : World) :
  deletions (trace (snd (TestMandatoryConfigMaps f (start w)))) = 0%nat.
Proof. run_scenario. all: reflexivity. Qed.

Lemma TestMandatorySecrets_deletions (w : World) :
  deletions (trace (snd (TestMandatorySecrets f (start w))))
  = Nat.b2n (goes (trace (snd (TestMandatorySecrets f (start w))))).
Proof. run_scenario. all: reflexivity. Qed.

(** The error [findPodInPodStats] returns is the one it builds on the way
    out of the loop. *)
Lemma findPodInPodStats_error summary pod idx e :
  findPodInPodStats summary pod = (idx, Some e) ->
  e = Errorf (notFoundMessage pod).
Proof.
  unfold findPodInPodStats.
  destruct (rangePods 0 (v1alpha1.Pods summary) pod); [discriminate|].
  intros H. now injection H as _ <-.
Qed.

Ltac tidy_run :=
  inv_events;
  repeat match goal with
    | H : (_, _) = (_, _) |- _ => injection H; clear H; intros
    end;
  inv_events;
  repeat match goal with
    | H : findPodInPodStats ?s ?p = _,
      H' : findPodInPodStats ?s ?p = _ |- _ =>
        rewrite H in H';
        first [ discriminate H'
              | injection H'; clear H'; intros; subst ]
    end;
  repeat match goal with
    | H : nth_error ?l ?n = _, H' : nth_error ?l ?n = _ |- _ =>
        rewrite H in H';
        first [ discriminate H'
              | injection H'; clear H'; intros; subst ]
    end;
  repeat match goal with
    | H : findPodInPodStats ?s ?p = (?z, Some ?e) |- _ =>
        pose proof (findPodInPodStats_error s p z e H); subst e
    end.

Ltac against_answers :=
  first [ discriminate
        | match goal with
          | H : (?a =? ?b)%string = true, Hn : ?a <> ?b |- _ =>
              apply String.eqb_eq in H; contradiction
          | H : (?a =? ?b)%string = false, He : ?a = ?b |- _ =>
              apply String.eqb_neq in H; contradiction
          | H : (?a =? ?b) = true, Hn : ?a <> ?b |- _ =>
              apply Z.eqb_eq in H; contradiction
          end
        | index_in_range ].

Ltac fatal_then_teardown :=
  fold (@app Event);
  lazymatch goal with
  | |- exists r, ?L = _ =>
      last_teardown L ltac:(fun L' r => exists r; teardown_equation)
  end.

(** [TestGetStatsSummary], the node of the summary is not the node of the
    framework. *)
Lemma TestGetStatsSummary_wrong_node (w : World) pod summary rest :
  trace (snd (TestGetStatsSummary f (start w)))
    = EvCreatePod obj3 (Some pod) None
        :: EvWaitUntilPodReady (v1.Namespace pod) (v1.Name pod) None
        :: EvGetStatsSummary (Some summary) None :: rest ->
  v1alpha1.NodeName (v1alpha1.Node summary) <> framework.NodeName f ->
  exists r,
    rest = ([EvFatal (wrongNodeMessage (framework.NodeName f)
                        (v1alpha1.NodeName (v1alpha1.Node summary)))]
            ++ teardownEvents pod r)%list.
Proof.
  run_scenario.
  all: tidy_run.
  all: try against_answers.
  all: fatal_then_teardown.
Qed.

(** The node is right, the pod is not in the summary. *)
Lemma TestGetStatsSummary_pod_missing (w : World) pod summary rest :
  trace (snd (TestGetStatsSummary f (start w)))
    = EvCreatePod obj3 (Some pod) None
        :: EvWaitUntilPodReady (v1.Namespace pod) (v1.Name pod) None
        :: EvGetStatsSummary (Some summary) None :: rest ->
  v1alpha1.NodeName (v1alpha1.Node summary) = framework.NodeName f ->
  found summary pod = false ->
  exists r,
    rest = ([EvFatal (notFoundMessage pod)] ++ teardownEvents pod r)%list.
Proof.
  unfold found. run_scenario.
  all: tidy_run.
  all: found_against_run.
  all: try against_answers.
  all: fatal_then_teardown.
Qed.

(** The node is right and the pod is in the summary, with another number
    of container records than the pod has containers. *)
Lemma TestGetStatsSummary_wrong_count
  (w : World) pod summary rest idx record :
  trace (snd (TestGetStatsSummary f (start w)))
    = EvCreatePod obj3 (Some pod) None
        :: EvWaitUntilPodReady (v1.Namespace pod) (v1.Name pod) None
        :: EvGetStatsSummary (Some summary) None :: rest ->
  v1alpha1.NodeName (v1alpha1.Node summary) = framework.NodeName f ->
  findPodInPodStats summary pod = (idx, None) ->
  nth_error (v1alpha1.Pods summary) (Z.to_nat idx) = Some record ->
  len (v1alpha1.Containers record) <> len (v1.Containers (v1.Spec pod)) ->
  exists r,
    rest = ([EvFatal (wrongCountMessage
                        (len (v1.Containers (v1.Spec pod)))
                        (len (v1alpha1.Containers record)))]
            ++ teardownEvents pod r)%list.
Proof.
  run_scenario.
  all: tidy_run.
  all: try against_answers.
  all: fatal_then_teardown.
Qed.

(** With no container in the dummy pod object, the scenarios that build
    their pod from a fixture panic before any call. *)
Lemma fixture_scenarios_without_container (w : World) :
  v1.Containers
    (v1.Spec (framework.CreateDummyPodObjectWithPrefix f "nginxtest" ["foo"]))
    = [] ->
  TestOptionalSecrets f (start w) = (Exited Panicked, start w) /\
  TestMandatorySecrets f (start w) = (Exited Panicked, start w) /\
  TestOptionalConfigMaps f (start w) = (Exited Panicked, start w) /\
  TestMandatoryConfigMaps f (start w) = (Exited Panicked, start w).
Proof.
  intros H.
  unfold TestOptionalSecrets, TestMandatorySecrets, TestOptionalConfigMaps,
    TestMandatoryConfigMaps, framework.CreatePodWithOptionalSecrets,
    framework.CreatePodWithMandatorySecrets,
    framework.CreatePodWithOptionalConfigMaps,
    framework.CreatePodWithMandatoryConfigMaps, framework.CreatePodWithEnv,
    framework.setEnvOfFirstContainer.
  rewrite H. repeat split.
Qed.

(** What [CreatePodWithEnv] keeps of the dummy pod object. *)
Lemma CreatePodWithEnv_frame (env : list v1.EnvVar) :
  match framework.CreatePodWithEnv f env with
  | None =>
      v1.Containers
        (v1.Spec (framework.CreateDummyPodObjectWithPrefix f
                    "nginxtest" ["foo"])) = []
  | Some obj =>
      v1.Namespace obj
        = v1.Namespace (framework.CreateDummyPodObjectWithPrefix f
                          "nginxtest" ["foo"]) /\
      v1.Name obj
        = v1.Name (framework.CreateDummyPodObjectWithPrefix f
                     "nginxtest" ["foo"]) /\
      v1.UID obj
        = v1.UID (framework.CreateDummyPodObjectWithPrefix f
                    "nginxtest" ["foo"]) /\
      exists c rest,
        v1.Containers
          (v1.Spec (framework.CreateDummyPodObjectWithPrefix f
                      "nginxtest" ["foo"])) = c :: rest /\
        v1.Containers (v1.Spec obj)
          = {| v1.Container_Name := v1.Container_Name c;
               v1.Image := v1.Image c;
               v1.Env := env |} :: rest
  end.
Proof.
  unfold framework.CreatePodWithEnv, framework.setEnvOfFirstContainer.
  destruct (v1.Containers
              (v1.Spec (framework.CreateDummyPodObjectWithPrefix f
                          "nginxtest" ["foo"]))) as [|c rest]; trivial.
  cbn. repeat split. now exists c, rest.
Qed.

End EveryRun.

(** * More on the correlator *)

Lemma rangePods_shift pods pod : forall i,
  rangePods i pods pod = option_map (Z.add i) (rangePods 0 pods pod).
Proof.
  induction pods as [|p rest IH]; intros i; cbn [rangePods option_map];
    trivial.
  destruct (samePod p pod); cbn [option_map].
  - now rewrite Z.add_0_r.
  - rewrite (IH (i + 1)), (IH (0 + 1)).
    destruct (rangePods 0 rest pod); cbn [option_map]; trivial.
    f_equal. lia.
Qed.

Lemma rangePods_app a b pod : forall i,
  rangePods i (a ++ b)%list pod
  = match rangePods i a pod with
    | Some j => Some j
    | None => rangePods (i + len a) b pod
    end.
Proof.
  induction a as [|p rest IH]; intros i; cbn [app rangePods].
  - unfold len. cbn [List.length Z.of_nat]. now rewrite Z.add_0_r.
  - destruct (samePod p pod); trivial.
    rewrite IH. destruct (rangePods (i + 1) rest pod); trivial.
    f_equal. unfold len. cbn [List.length]. lia.
Qed.

Lemma rangePods_PodRef pods pods' pod : forall i,
  map v1alpha1.PodRef pods = map v1alpha1.PodRef pods' ->
  rangePods i pods pod = rangePods i pods' pod.
Proof.
  revert pods'.
  induction pods as [|p rest IH]; intros [|p' rest'] i H;
    try discriminate; trivial.
  cbn [map] in H. injection H as Hp Hrest. cbn [rangePods].
  unfold samePod. rewrite Hp. destruct (_ && _ && _); trivial.
  now apply IH.
Qed.

(** X1.  [findPodInPodStats] on the records of two lists put end to end:
    the index in the first list when the pod is there, else the index in
    the second list moved by the length of the first, else the error. *)
Theorem findPodInPodStats_app :
  forall (node : v1alpha1.NodeStats) (a b : list v1alpha1.PodStats)
         (pod : v1.Pod),
    findPodInPodStats
      {| v1alpha1.Node := node; v1alpha1.Pods := (a ++ b)%list |} pod
    = match findPodInPodStats
              {| v1alpha1.Node := node; v1alpha1.Pods := a |} pod with
      | (i, None) => (i, None)
      | (_, Some _) =>
          match findPodInPodStats
                  {| v1alpha1.Node := node; v1alpha1.Pods := b |} pod with
          | (j, None) => (len a + j, None)
          | (j, Some e) => (j, Some e)
          end
      end.
Proof.
  intros node a b pod. unfold findPodInPodStats. cbn [v1alpha1.Pods].
  rewrite rangePods_app.
  destruct (rangePods 0 a pod); trivial.
  rewrite rangePods_shift.
  destruct (rangePods 0 b pod); trivial.
Qed.

(** X2.  [findPodInPodStats] reads nothing of a summary but the pod
    references of its records: two summaries with the same references, in
    the same order, give the same result. *)
Theorem findPodInPodStats_reads_only_PodRef :
  forall (summary summary' : v1alpha1.Summary) (pod : v1.Pod),
    map v1alpha1.PodRef (v1alpha1.Pods summary)
      = map v1alpha1.PodRef (v1alpha1.Pods summary') ->
    findPodInPodStats summary pod = findPodInPodStats summary' pod.
Proof.
  intros summary summary' pod H. unfold findPodInPodStats.
  now rewrite (rangePods_PodRef _ _ pod 0 H).
Qed.

Lemma findPodInPodStats_reads_only_PodRef_witness :
  findPodInPodStats
    (Scripted.summary
       [Scripted.statsOf Examples.web1 1; Scripted.statsOf Examples.web0 1])
    Examples.web0
  = findPodInPodStats
      {| v1alpha1.Node := {| v1alpha1.NodeName := "another-node" |};
         v1alpha1.Pods :=
           [Scripted.statsOf Examples.web1 4;
            Scripted.statsOf Examples.web0 0] |}
      Examples.web0.
Proof.
  apply (findPodInPodStats_reads_only_PodRef
           (Scripted.summary
              [Scripted.statsOf Examples.web1 1;
               Scripted.statsOf Examples.web0 1])
           {| v1alpha1.Node := {| v1alpha1.NodeName := "another-node" |};
              v1alpha1.Pods :=
                [Scripted.statsOf Examples.web1 4;
                 Scripted.statsOf Examples.web0 0] |}
           Examples.web0).
  reflexivity.
Defined.

(** * More on the scenarios: the properties of every run *)

(** X3.  In every scenario, on every run, an error of a wait for
    readiness, of a query of the stats summary, of an immediate deletion or
    of a receive from a deletion wait is followed at once by the [t.Fatal]
    of that error. *)
Theorem errors_are_fatal_on_every_run
  {World : Type} (f : framework.Framework World)
  (Sleep : Z -> World -> World) (w : World) :
  errorsAreFatal (trace (snd (TestGetStatsSummary f (start w)))) /\
  errorsAreFatal (trace (snd (TestPodLifecycle f Sleep (start w)))) /\
  errorsAreFatal (trace (snd (TestOptionalSecrets f (start w)))) /\
  errorsAreFatal (trace (snd (TestMandatorySecrets f (start w)))) /\
  errorsAreFatal (trace (snd (TestOptionalConfigMaps f (start w)))) /\
  errorsAreFatal (trace (snd (TestMandatoryConfigMaps f (start w)))).
Proof.
  repeat apply conj.
  - apply (TestGetStatsSummary_shape f w).
  - apply (TestPodLifecycle_shape f Sleep w).
  - apply (TestOptionalSecrets_shape f w).
  - apply (TestMandatorySecrets_shape f w).
  - apply (TestOptionalConfigMaps_shape f w).
  - apply (TestMandatoryConfigMaps_shape f w).
Qed.

(** X4.  In every scenario, on every run, a [t.Fatal] ends the test
    function: of the steps of the scenario's own goroutine, only calls of
    [DeletePod] by the deferred closures, and the [t.Error] of their
    errors, come after it.  The goroutine of a deletion wait is not one of
    them: [t.Fatal] does not stop it (see [DeletionWait_refused_schedules]
    for a refused deletion). *)
Theorem nothing_but_teardown_after_fatal
  {World : Type} (f : framework.Framework World)
  (Sleep : Z -> World -> World) (w : World) :
  onlyTeardownAfterFatal (trace (snd (TestGetStatsSummary f (start w)))) /\
  onlyTeardownAfterFatal (trace (snd (TestPodLifecycle f Sleep (start w)))) /\
  onlyTeardownAfterFatal (trace (snd (TestOptionalSecrets f (start w)))) /\
  onlyTeardownAfterFatal (trace (snd (TestMandatorySecrets f (start w)))) /\
  onlyTeardownAfterFatal (trace (snd (TestOptionalConfigMaps f (start w)))) /\
  onlyTeardownAfterFatal (trace (snd (TestMandatoryConfigMaps f (start w)))).
Proof.
  repeat apply conj.
  - apply (TestGetStatsSummary_shape f w).
  - apply (TestPodLifecycle_shape f Sleep w).
  - apply (TestOptionalSecrets_shape f w).
  - apply (TestMandatorySecrets_shape f w).
  - apply (TestOptionalConfigMaps_shape f w).
  - apply (TestMandatoryConfigMaps_shape f w).
Qed.

(** X5.  In the four scenarios that wait for a deletion, on every run, the
    [go] statement of the wait is followed at once by the request to delete
    the same pod, a refused request by the [t.Fatal] of its error; and the
    scenario receives from the wait only right after an accepted request
    for that pod, itself right after the [go] statement. *)
Theorem deletion_wait_in_program_order
  {World : Type} (f : framework.Framework World)
  (Sleep : Z -> World -> World) (w : World) :
  (goThenDelete (trace (snd (TestPodLifecycle f Sleep (start w)))) /\
   recvAfterDelete None None
     (trace (snd (TestPodLifecycle f Sleep (start w))))) /\
  (goThenDelete (trace (snd (TestOptionalSecrets f (start w)))) /\
   recvAfterDelete None None
     (trace (snd (TestOptionalSecrets f (start w))))) /\
  (goThenDelete (trace (snd (TestMandatorySecrets f (start w)))) /\
   recvAfterDelete None None
     (trace (snd (TestMandatorySecrets f (start w))))) /\
  (goThenDelete (trace (snd (TestOptionalConfigMaps f (start w)))) /\
   recvAfterDelete None None
     (trace (snd (TestOptionalConfigMaps f (start w))))).
Proof.
  pose proof (TestPodLifecycle_shape f Sleep w) as (_ & H1 & H2 & _).
  pose proof (TestOptionalSecrets_shape f w) as (_ & H3 & H4 & _).
  pose proof (TestMandatorySecrets_shape f w) as (_ & H5 & H6 & _).
  pose proof (TestOptionalConfigMaps_shape f w) as (_ & H7 & H8 & _).
  repeat split; assumption.
Qed.

(** X6.  In [TestGetStatsSummary] and [TestPodLifecycle], on every run, a
    refused submission, of the first pod or of the second, is followed at
    once by the [t.Fatal] of its error. *)
Theorem refused_submission_is_fatal_where_checked
  {World : Type} (f : framework.Framework World)
  (Sleep : Z -> World -> World) (w : World) :
  refusalsAreFatal (trace (snd (TestGetStatsSummary f (start w)))) /\
  refusalsAreFatal (trace (snd (TestPodLifecycle f Sleep (start w)))).
Proof.
  split.
  - apply TestGetStatsSummary_refusals.
  - apply TestPodLifecycle_refusals.
Qed.

(** X7.  A scenario panics only when the framework handed back a nil pod,
    or a nil summary with a nil error, or when the fixture found no
    container in the dummy pod object; no index is ever out of range. *)
Theorem scenarios_panic_only_on_nil
  {World : Type} (f : framework.Framework World)
  (Sleep : Z -> World -> World) (w : World) :
  (fst (TestGetStatsSummary f (start w)) = Exited Panicked ->
   existsb nilHandedBack (trace (snd (TestGetStatsSummary f (start w))))
     = true) /\
  (fst (TestPodLifecycle f Sleep (start w)) = Exited Panicked ->
   existsb nilHandedBack (trace (snd (TestPodLifecycle f Sleep (start w))))
     = true) /\
  (fst (TestOptionalSecrets f (start w)) = Exited Panicked ->
   existsb nilHandedBack (trace (snd (TestOptionalSecrets f (start w))))
     = true \/
   framework.CreatePodWithOptionalSecrets f = None) /\
  (fst (TestMandatorySecrets f (start w)) = Exited Panicked ->
   existsb nilHandedBack (trace (snd (TestMandatorySecrets f (start w))))
     = true \/
   framework.CreatePodWithMandatorySecrets f = None) /\
  (fst (TestOptionalConfigMaps f (start w)) = Exited Panicked ->
   existsb nilHandedBack (trace (snd (TestOptionalConfigMaps f (start w))))
     = true \/
   framework.CreatePodWithOptionalConfigMaps f = None) /\
  (fst (TestMandatoryConfigMaps f (start w)) = Exited Panicked ->
   existsb nilHandedBack (trace (snd (TestMandatoryConfigMaps f (start w))))
     = true \/
   framework.CreatePodWithMandatoryConfigMaps f = None).
Proof.
  repeat apply conj.
  - apply TestGetStatsSummary_panic.
  - apply TestPodLifecycle_panic.
  - apply TestOptionalSecrets_panic.
  - apply TestMandatorySecrets_panic.
  - apply TestOptionalConfigMaps_panic.
  - apply TestMandatoryConfigMaps_panic.
Qed.

Lemma scenarios_panic_only_on_nil_witness :
  existsb nilHandedBack
    (trace (snd (TestMandatorySecrets Scripted.f
                   (start Examples.refusedSubmissionNilScript)))) = true \/
  framework.CreatePodWithMandatorySecrets Scripted.f = None.
Proof.
  apply (proj1 (proj2 (proj2 (proj2
           (scenarios_panic_only_on_nil Scripted.f Scripted.Sleep
              Examples.refusedSubmissionNilScript))))).
  reflexivity.
Defined.

(** X8.  The mandatory scenarios defer no deletion: no run of
    [TestMandatoryConfigMaps] asks for the deletion of the pod it created,
    and a run of [TestMandatorySecrets] asks for it once when it gets to
    its [go] statement and not at all when it ends before. *)
Theorem mandatory_scenarios_defer_no_deletion
  {World : Type} (f : framework.Framework World) (w : World) :
  deletions (trace (snd (TestMandatoryConfigMaps f (start w)))) = 0%nat /\
  deletions (trace (snd (TestMandatorySecrets f (start w))))
  = Nat.b2n (goes (trace (snd (TestMandatorySecrets f (start w))))).
Proof.
  split.
  - apply TestMandatoryConfigMaps_deletions.
  - apply TestMandatorySecrets_deletions.
Qed.

(** X9.  What each failed assertion of [TestGetStatsSummary] reports, on a
    run that got its pod ready and a summary: a summary of another node is
    reported first, whatever its records; then a pod missing from the
    summary; then a number of container records that is not the number of
    containers of the pod.  Each ends the scenario, and the deferred
    deletion follows. *)
Theorem TestGetStatsSummary_failed_assertions
  {World : Type} (f : framework.Framework World) (w : World)
  (pod : v1.Pod) (summary : v1alpha1.Summary) (rest : list Event) :
  trace (snd (TestGetStatsSummary f (start w)))
    = EvCreatePod
        (framework.CreateDummyPodObjectWithPrefix f "nginx-0-"
           ["foo"; "bar"; "baz"]) (Some pod) None
        :: EvWaitUntilPodReady (v1.Namespace pod) (v1.Name pod) None
        :: EvGetStatsSummary (Some summary) None :: rest ->
  (v1alpha1.NodeName (v1alpha1.Node summary) <> framework.NodeName f ->
   exists r,
     rest = ([EvFatal (wrongNodeMessage (framework.NodeName f)
                         (v1alpha1.NodeName (v1alpha1.Node summary)))]
             ++ teardownEvents pod r)%list) /\
  (v1alpha1.NodeName (v1alpha1.Node summary) = framework.NodeName f ->
   found summary pod = false ->
   exists r,
     rest = ([EvFatal (notFoundMessage pod)] ++ teardownEvents pod r)%list) /\
  (v1alpha1.NodeName (v1alpha1.Node summary) = framework.NodeName f ->
   forall idx record,
     findPodInPodStats summary pod = (idx, None) ->
     nth_error (v1alpha1.Pods summary) (Z.to_nat idx) = Some record ->
     len (v1alpha1.Containers record)
       <> len (v1.Containers (v1.Spec pod)) ->
     exists r,
       rest = ([EvFatal (wrongCountMessage
                           (len (v1.Containers (v1.Spec pod)))
                           (len (v1alpha1.Containers record)))]
               ++ teardownEvents pod r)%list).
Proof.
  intros Hlog. repeat apply conj.
  - now apply (TestGetStatsSummary_wrong_node f w).
  - now apply (TestGetStatsSummary_pod_missing f w).
  - intros Hnode idx record. now apply (TestGetStatsSummary_wrong_count f w).
Qed.

Lemma TestGetStatsSummary_failed_assertions_witness :
  exists r,
    [ EvFatal (wrongCountMessage 3 2);
      EvDeletePod "default" "nginx-0-z" None ]
    = ([EvFatal (wrongCountMessage
                   (len (v1.Containers (v1.Spec Examples.web3)))
                   (len (v1alpha1.Containers
                           (Scripted.statsOf Examples.web3 2))))]
       ++ teardownEvents Examples.web3 r)%list.
Proof.
  apply (proj2 (proj2
           (TestGetStatsSummary_failed_assertions Scripted.f
              (MoreExamples.statsCountScript 2) Examples.web3
              (Scripted.summary [Scripted.statsOf Examples.web3 2])
              [ EvFatal (wrongCountMessage 3 2);
                EvDeletePod "default" "nginx-0-z" None ]
              eq_refl))
           eq_refl 0 (Scripted.statsOf Examples.web3 2) eq_refl eq_refl).
  cbn. discriminate.
Defined.

(** X10.  A fixture is the dummy pod object of prefix [nginxtest] with the
    environment of its first container replaced: same namespace, name and
    uid, same containers but for that environment.  With no container in
    the dummy pod object the fixture is an index out of range, and the four
    scenarios built on a fixture panic before they call the framework. *)
Theorem fixtures_keep_the_dummy_pod_object
  {World : Type} (f : framework.Framework World) (w : World) :
  (forall env,
      match framework.CreatePodWithEnv f env with
      | None =>
          v1.Containers
            (v1.Spec (framework.CreateDummyPodObjectWithPrefix f
                        "nginxtest" ["foo"])) = []
      | Some obj =>
          v1.Namespace obj
            = v1.Namespace (framework.CreateDummyPodObjectWithPrefix f
                              "nginxtest" ["foo"]) /\
          v1.Name obj
            = v1.Name (framework.CreateDummyPodObjectWithPrefix f
                         "nginxtest" ["foo"]) /\
          v1.UID obj
            = v1.UID (framework.CreateDummyPodObjectWithPrefix f
                        "nginxtest" ["foo"]) /\
          exists c rest,
            v1.Containers
              (v1.Spec (framework.CreateDummyPodObjectWithPrefix f
                          "nginxtest" ["foo"])) = c :: rest /\
            v1.Containers (v1.Spec obj)
              = {| v1.Container_Name := v1.Container_Name c;
                   v1.Image := v1.Image c;
                   v1.Env := env |} :: rest
      end) /\
  (v1.Containers
     (v1.Spec (framework.CreateDummyPodObjectWithPrefix f
                 "nginxtest" ["foo"])) = [] ->
   TestOptionalSecrets f (start w) = (Exited Panicked, start w) /\
   TestMandatorySecrets f (start w) = (Exited Panicked, start w) /\
   TestOptionalConfigMaps f (start w) = (Exited Panicked, start w) /\
   TestMandatoryConfigMaps f (start w) = (Exited Panicked, start w)).
Proof.
  split.
  - apply CreatePodWithEnv_frame.
  - apply fixture_scenarios_without_container.
Qed.

Lemma fixtures_keep_the_dummy_pod_object_witness :
  TestOptionalSecrets MoreExamples.bare
    (start (Examples.optionalSecretsScript 1))
    = (Exited Panicked, start (Examples.optionalSecretsScript 1)) /\
  TestMandatorySecrets MoreExamples.bare
    (start (Examples.optionalSecretsScript 1))
    = (Exited Panicked, start (Examples.optionalSecretsScript 1)) /\
  TestOptionalConfigMaps MoreExamples.bare
    (start (Examples.optionalSecretsScript 1))
    = (Exited Panicked, start (Examples.optionalSecretsScript 1)) /\
  TestMandatoryConfigMaps MoreExamples.bare
    (start (Examples.optionalSecretsScript 1))
    = (Exited Panicked, start (Examples.optionalSecretsScript 1)).
Proof.
  apply (proj2 (fixtures_keep_the_dummy_pod_object MoreExamples.bare
                  (Examples.optionalSecretsScript 1))).
  reflexivity.
Defined.

(** * The reader of the scope listing responses *)

Section ListResponsesFacts.

Context {Body ScopeConfig ModelsError ConsumerError : Type}.
Variable zeroError : ModelsError.
Variable isEOF : ConsumerError -> bool.

Local Abbreviation ReadResponse := (scopes.ReadResponse zeroError isEOF).
Local Abbreviation consumerFailure :=
  (scopes.consumerFailure zeroError isEOF).
Local Abbreviation consumed := (scopes.consumed zeroError).
Local Abbreviation Response := (@scopes.ClientResponse Body).
Local Abbreviation Consumer :=
  (@scopes.Consumer Body ScopeConfig ModelsError ConsumerError).

(** Go's division of a status code by 100 is 2 on the codes 200 to 299. *)
Lemma quot_100_is_2 (c : Z) :
  (Z.quot c 100 =? 2) = true <-> 200 <= c < 300.
Proof.
  rewrite Z.eqb_eq. Z.quot_rem_to_equations. lia.
Qed.

(** [ReadResponse], case by case. *)
Lemma ReadResponse_cases (response : Response) (consumer : Consumer) :
  ReadResponse response consumer
  = match consumerFailure response consumer with
    | Some e => (None, Some (scopes.FailConsumer e))
    | None =>
        if scopes.Code response =? 200 then
          (Some (scopes.ResultOK
                   {| scopes.ListOK_Payload :=
                        fst (scopes.ConsumeScopes consumer
                               (scopes.ResponseBody response) []) |}),
           None)
        else if scopes.Code response =? 404 then
          (None,
           Some (scopes.FailNotFound
                   {| scopes.ListNotFound_Payload :=
                        Some (fst (scopes.ConsumeError consumer
                                     (scopes.ResponseBody response)
                                     zeroError)) |}))
        else if Z.quot (scopes.Code response) 100 =? 2 then
          (Some (scopes.ResultDefault
                   {| scopes._statusCode := scopes.Code response;
                      scopes.ListDefault_Payload :=
                        Some (fst (scopes.ConsumeError consumer
                                     (scopes.ResponseBody response)
                                     zeroError)) |}),
           None)
        else
          (None,
           Some (scopes.FailDefault
                   {| scopes._statusCode := scopes.Code response;
                      scopes.ListDefault_Payload :=
                        Some (fst (scopes.ConsumeError consumer
                                     (scopes.ResponseBody response)
                                     zeroError)) |}))
    end.
Proof.
  unfold scopes.ReadResponse, scopes.consumerFailure,
    scopes.ListOK_readResponse, scopes.ListNotFound_readResponse,
    scopes.ListDefault_readResponse, scopes.NewListOK,
    scopes.NewListNotFound, scopes.NewListDefault.
  cbn [scopes.ListOK_Payload scopes._statusCode].
  destruct (scopes.Code response =? 200).
  - destruct (scopes.ConsumeScopes consumer (scopes.ResponseBody response) [])
      as [payload err]; cbn [fst snd].
    destruct (scopes.unlessEOF isEOF err); reflexivity.
  - destruct (scopes.ConsumeError consumer (scopes.ResponseBody response)
                zeroError) as [payload err]; cbn [fst snd].
    destruct (scopes.Code response =? 404);
      destruct (scopes.unlessEOF isEOF err); reflexivity.
Qed.

(** The code behind the errors that are responses. *)
Lemma ReadResponse_kind_cases (response : Response) (consumer : Consumer) :
  (forall o,
      snd (ReadResponse response consumer) = Some (scopes.FailNotFound o) ->
      scopes.Code response = 404 /\
      scopes.ListNotFound_Payload o <> None) /\
  (forall o,
      snd (ReadResponse response consumer) = Some (scopes.FailDefault o) ->
      scopes.ListDefault_Code o = scopes.Code response).
Proof.
  rewrite ReadResponse_cases.
  destruct (consumerFailure response consumer) as [e|];
    [split; intros; discriminate|].
  destruct (scopes.Code response =? 200);
    [split; intros; discriminate|].
  destruct (scopes.Code response =? 404) eqn:E404.
  - apply Z.eqb_eq in E404. cbn [snd]. split; intros o H; [|discriminate].
    injection H as <-. split; [exact E404|discriminate].
  - destruct (Z.quot (scopes.Code response) 100 =? 2); cbn [snd];
      split; intros o H; try discriminate.
    now injection H as <-.
Qed.

(** What the reader makes of the answer of the consumer. *)
Lemma consumerFailure_consumed (response : Response) (consumer : Consumer) :
  consumerFailure response consumer
  = match consumed response consumer with
    | Some e => if isEOF e then None else Some e
    | None => None
    end.
Proof.
  unfold scopes.consumerFailure, scopes.consumed, scopes.unlessEOF.
  destruct (scopes.Code response =? 200).
  - destruct (snd (scopes.ConsumeScopes consumer
                     (scopes.ResponseBody response) [])) as [e|]; trivial.
    now destruct (isEOF e).
  - destruct (snd (scopes.ConsumeError consumer
                     (scopes.ResponseBody response) zeroError)) as [e|];
      trivial.
    now destruct (isEOF e).
Qed.

(** X11.  [ReadResponse] returns a value and a nil error exactly on a
    status code from 200 to 299 when the consumer answered nil or
    [io.EOF]; on every other response it returns nil and an error.  It
    never returns both, and never neither. *)
Theorem ReadResponse_succeeds_exactly_on_2xx
  (response : Response) (consumer : Consumer) :
  match ReadResponse response consumer with
  | (Some _, None) =>
      200 <= scopes.Code response < 300 /\
      (forall e, consumed response consumer = Some e -> isEOF e = true)
  | (None, Some _) =>
      ~ (200 <= scopes.Code response < 300 /\
         (forall e, consumed response consumer = Some e -> isEOF e = true))
  | _ => False
  end.
Proof.
  rewrite ReadResponse_cases, consumerFailure_consumed.
  destruct (consumed response consumer) as [e|].
  - destruct (isEOF e) eqn:E.
    + destruct (scopes.Code response =? 200) eqn:E200.
      * apply Z.eqb_eq in E200. split; [lia|].
        intros e' H. now injection H as <-.
      * destruct (scopes.Code response =? 404) eqn:E404.
        -- apply Z.eqb_eq in E404. intros [H _]. lia.
        -- destruct (Z.quot (scopes.Code response) 100 =? 2) eqn:E2.
           ++ apply quot_100_is_2 in E2. split; [exact E2|].
              intros e' H. now injection H as <-.
           ++ intros [H _]. apply quot_100_is_2 in H. congruence.
    + intros [_ H]. specialize (H e eq_refl). congruence.
  - destruct (scopes.Code response =? 200) eqn:E200.
    + apply Z.eqb_eq in E200. split; [lia|discriminate].
    + destruct (scopes.Code response =? 404) eqn:E404.
      * apply Z.eqb_eq in E404. intros [H _]. lia.
      * destruct (Z.quot (scopes.Code response) 100 =? 2) eqn:E2.
        -- apply quot_100_is_2 in E2. split; [exact E2|discriminate].
        -- intros [H _]. apply quot_100_is_2 in H. congruence.
Qed.

(** X12.  What the kind of the value or error [ReadResponse] returns
    tells of the response: a [ListOK] comes from the code 200 alone, a
    [ListNotFound] from 404 alone and with a payload, and a [ListDefault]
    holds the code of the response, one of 201 to 299 when it is returned
    as the value, one outside 200 to 299 and not 404 when it is returned as
    the error. *)
Theorem ReadResponse_kind_tells_the_code
  (response : Response) (consumer : Consumer) :
  (forall o,
      fst (ReadResponse response consumer) = Some (scopes.ResultOK o) ->
      scopes.Code response = 200) /\
  (forall o,
      snd (ReadResponse response consumer) = Some (scopes.FailNotFound o) ->
      scopes.Code response = 404 /\
      scopes.ListNotFound_Payload o <> None) /\
  (forall o,
      fst (ReadResponse response consumer) = Some (scopes.ResultDefault o) ->
      scopes.ListDefault_Code o = scopes.Code response /\
      200 < scopes.Code response < 300) /\
  (forall o,
      snd (ReadResponse response consumer) = Some (scopes.FailDefault o) ->
      scopes.ListDefault_Code o = scopes.Code response /\
      ~ 200 <= scopes.Code response < 300 /\
      scopes.Code response <> 404).
Proof.
  rewrite ReadResponse_cases.
  destruct (consumerFailure response consumer) as [e|];
    [cbn [fst snd]; repeat apply conj; intros; discriminate|].
  destruct (scopes.Code response =? 200) eqn:E200.
  { apply Z.eqb_eq in E200. cbn [fst snd].
    repeat apply conj; intros o H; first [exact E200 | discriminate]. }
  apply Z.eqb_neq in E200.
  destruct (scopes.Code response =? 404) eqn:E404.
  - apply Z.eqb_eq in E404. cbn [fst snd].
    repeat apply conj; intros o H; try discriminate.
    injection H as <-. split; [exact E404|discriminate].
  - apply Z.eqb_neq in E404.
    destruct (Z.quot (scopes.Code response) 100 =? 2) eqn:E2; cbn [fst snd].
    + apply quot_100_is_2 in E2.
      repeat apply conj; intros o H; try discriminate.
      injection H as <-. split; [reflexivity|lia].
    + repeat apply conj; intros o H; try discriminate.
      injection H as <-. split; [reflexivity|]. split; trivial.
      intros H. apply quot_100_is_2 in H. congruence.
Qed.

(** X13.  [ReadResponse] returns an error of the consumer exactly when
    the consumer answered that error and it is not [io.EOF], whatever the
    status code; the value it returns with it is nil. *)
Theorem ReadResponse_consumer_error
  (response : Response) (consumer : Consumer) (e : ConsumerError) :
  (snd (ReadResponse response consumer) = Some (scopes.FailConsumer e) <->
   consumed response consumer = Some e /\ isEOF e = false) /\
  (consumed response consumer = Some e -> isEOF e = false ->
   ReadResponse response consumer = (None, Some (scopes.FailConsumer e))).
Proof.
  rewrite ReadResponse_cases, consumerFailure_consumed.
  destruct (consumed response consumer) as [e'|].
  - destruct (isEOF e') eqn:E.
    + split.
      * split.
        -- destruct (scopes.Code response =? 200);
             [|destruct (scopes.Code response =? 404);
               [|destruct (Z.quot (scopes.Code response) 100 =? 2)]];
             cbn [snd]; discriminate.
        -- intros [H He]. injection H as <-. congruence.
      * intros H He. injection H as <-. congruence.
    + cbn [snd]. split.
      * split.
        -- intros H. injection H as <-. now split.
        -- intros [H _]. now injection H as <-.
      * intros H _. now injection H as <-.
  - split.
    + split.
      * destruct (scopes.Code response =? 200);
          [|destruct (scopes.Code response =? 404);
            [|destruct (Z.quot (scopes.Code response) 100 =? 2)]];
          cbn [snd]; discriminate.
      * intros [H _]. discriminate.
    + discriminate.
Qed.

(** X14.  An [io.EOF] of the consumer is as good as no error: when the
    consumer answers nil or [io.EOF], [ReadResponse] returns what it
    returns with a consumer that writes the same payload and reports no
    error. *)
Theorem ReadResponse_forgives_EOF
  (response : Response) (consumer : Consumer) :
  (forall e, consumed response consumer = Some e -> isEOF e = true) ->
  ReadResponse response consumer
  = ReadResponse response (scopes.quiet consumer).
Proof.
  intros H.
  rewrite !ReadResponse_cases, !consumerFailure_consumed.
  assert (Hq : consumed response (scopes.quiet consumer) = None).
  { unfold scopes.consumed, scopes.quiet.
    cbn [scopes.ConsumeScopes scopes.ConsumeError snd].
    now destruct (scopes.Code response =? 200). }
  rewrite Hq.
  destruct (consumed response consumer) as [e|].
  - rewrite (H e eq_refl). reflexivity.
  - reflexivity.
Qed.

Variable showScopes : list (option ScopeConfig) -> string.
Variable showError : option ModelsError -> string.

(** X15.  The message of an error [ReadResponse] returns, when it is not
    the consumer's, names the operation and the status code of the
    response. *)
Theorem ReadResponse_error_names_the_code
  (response : Response) (consumer : Consumer)
  (describe : ConsumerError -> string) (e : scopes.Failure) :
  snd (ReadResponse response consumer) = Some e ->
  (forall c, e <> scopes.FailConsumer c) ->
  exists tail,
    scopes.Failure_Error showError describe e
    = scopes.operation ++ itoa (scopes.Code response) ++ tail.
Proof.
  intros H Hc.
  pose proof (ReadResponse_kind_cases response consumer) as K.
  destruct e as [c|o|o].
  - destruct (Hc c eq_refl).
  - destruct (proj1 K o H) as [-> _]. cbn. eexists. reflexivity.
  - rewrite <- (proj2 K o H). cbn. eexists. reflexivity.
Qed.

End ListResponsesFacts.

Lemma ReadResponse_succeeds_exactly_on_2xx_witness :
  200 <= 204 < 300 /\
  (forall e,
      scopes.consumed EmptyString
        {| scopes.Code := 204; scopes.ResponseBody := EmptyString |}
        scopes.textConsumer = Some e ->
      scopes.textIsEOF e = true).
Proof.
  exact (ReadResponse_succeeds_exactly_on_2xx EmptyString scopes.textIsEOF
           {| scopes.Code := 204; scopes.ResponseBody := EmptyString |}
           scopes.textConsumer).
Defined.

Lemma ReadResponse_consumer_error_witness :
  scopes.ReadResponse EmptyString scopes.textIsEOF
    {| scopes.Code := 200; scopes.ResponseBody := "{" |}
    scopes.textConsumer
  = (None, Some (scopes.FailConsumer scopes.syntaxError)).
Proof.
  apply (proj2 (ReadResponse_consumer_error EmptyString scopes.textIsEOF
                  {| scopes.Code := 200; scopes.ResponseBody := "{" |}
                  scopes.textConsumer scopes.syntaxError));
    reflexivity.
Defined.

Lemma ReadResponse_forgives_EOF_witness :
  scopes.ReadResponse EmptyString scopes.textIsEOF
    {| scopes.Code := 200; scopes.ResponseBody := EmptyString |}
    scopes.textConsumer
  = scopes.ReadResponse EmptyString scopes.textIsEOF
      {| scopes.Code := 200; scopes.ResponseBody := EmptyString |}
      (scopes.quiet scopes.textConsumer) /\
  scopes.consumed EmptyString
    {| scopes.Code := 200; scopes.ResponseBody := EmptyString |}
    scopes.textConsumer = Some scopes.eof /\
  scopes.textIsEOF scopes.eof = true.
Proof.
  split; [|split; reflexivity].
  apply (ReadResponse_forgives_EOF EmptyString scopes.textIsEOF
           {| scopes.Code := 200; scopes.ResponseBody := EmptyString |}
           scopes.textConsumer).
  intros e H. injection H as <-. reflexivity.
Defined.

Lemma ReadResponse_error_names_the_code_witness :
  exists tail,
    scopes.Failure_Error scopes.textOfError (fun e => e)
      (scopes.FailDefault
         {| scopes._statusCode := 503;
            scopes.ListDefault_Payload := Some "busy" |})
    = scopes.operation ++ itoa 503 ++ tail.
Proof.
  apply (ReadResponse_error_names_the_code EmptyString scopes.textIsEOF
           scopes.textOfError
           {| scopes.Code := 503; scopes.ResponseBody := "busy" |}
           scopes.textConsumer (fun e => e)
           (scopes.FailDefault
              {| scopes._statusCode := 503;
                 scopes.ListDefault_Payload := Some "busy" |})).
  - reflexivity.
  - intros c. discriminate.
Defined.
